(** * Triple extraction engine of the ArXiv knowledge-graph generator

    Shallow embedding of [src/main.py] (class [KnowledgeGraphGenerator] and
    the store handling of [main]) together with the properties of its
    chunker, its triple extractor and its JSON triple store. *)

From Stdlib Require Import String Ascii List ZArith Lia Bool Arith.
Import ListNotations.

Local Open Scope string_scope.
Local Open Scope list_scope.

(* ================================================================== *)
(** * Part I: definitions *)
(* ================================================================== *)

(** ** Exceptions and the error monad

    Only subclasses of Python's [Exception] are modelled: these are the
    failures that the program's [try] blocks are written against. *)

Inductive exn : Type :=
| ValueError (msg : string)
| AttributeError (msg : string)
| JSONDecodeError
| UnicodeDecodeError
| OSError (msg : string)
| OtherException (name : string).

Inductive result (A : Type) : Type :=
| Ok (a : A)
| Raise (e : exn).

Arguments Ok {A} a.
Arguments Raise {A} e.

Definition bind {A B : Type} (m : result A) (k : A -> result B) : result B :=
  match m with
  | Ok a => k a
  | Raise e => Raise e
  end.

Declare Scope err_scope.
Delimit Scope err_scope with err.
Notation "x <- m ;; k" := (bind m (fun x => k))
  (at level 100, m at next level, right associativity) : err_scope.
Local Open Scope err_scope.

(** [try: body except Exception: handler] *)
Definition try_except {A : Type} (body : result A) (handler : exn -> result A)
  : result A :=
  match body with
  | Ok a => Ok a
  | Raise e => handler e
  end.

(** A [for] loop whose body may raise, threading the loop's mutable state. *)
Fixpoint for_each {A S : Type} (xs : list A) (body : A -> S -> result S)
  (st : S) : result S :=
  match xs with
  | [] => Ok st
  | x :: xs' => st' <- body x st ;; for_each xs' body st'
  end.

(** ** Python built-ins used by the program *)

Module Py.

(** [range(start, stop, step)], with the length CPython computes. *)
Definition range_length (start stop step : Z) : Z :=
  if (0 <? step)%Z then
    if (start <? stop)%Z then ((stop - start - 1) / step + 1)%Z else 0%Z
  else
    if (stop <? start)%Z then ((start - stop - 1) / (- step) + 1)%Z else 0%Z.

Definition range (start stop step : Z) : result (list Z) :=
  if (step =? 0)%Z then Raise (ValueError "range() arg 3 must not be zero")
  else Ok (map (fun k => (start + Z.of_nat k * step)%Z)
               (seq 0 (Z.to_nat (range_length start stop step)))).

Fixpoint take (n : nat) (s : string) : string :=
  match n, s with
  | O, _ => EmptyString
  | S _, EmptyString => EmptyString
  | S n', String c s' => String c (take n' s')
  end.

Fixpoint drop (n : nat) (s : string) : string :=
  match n, s with
  | O, _ => s
  | S _, EmptyString => EmptyString
  | S n', String _ s' => drop n' s'
  end.

Definition len (s : string) : Z := Z.of_nat (String.length s).

(** Normalisation of a slice bound: negative bounds count from the end,
    and every bound is clipped to [0 .. len]. *)
Definition clip (n k : Z) : Z :=
  if (k <? 0)%Z then Z.max 0 (k + n) else Z.min k n.

(** [s[lo:hi]] *)
Definition slice (s : string) (lo hi : Z) : string :=
  let a := clip (len s) lo in
  let b := clip (len s) hi in
  if (a <? b)%Z then take (Z.to_nat (b - a)) (drop (Z.to_nat a) s)
  else EmptyString.

(** [needle in hay] on strings. *)
Fixpoint str_in (needle hay : string) : bool :=
  String.prefix needle hay ||
  match hay with
  | EmptyString => false
  | String _ hay' => str_in needle hay'
  end.

(** [sep.join(parts)] *)
Definition join (sep : string) (parts : list string) : string :=
  String.concat sep parts.

(** Truthiness of a list: [if xs:]. *)
Definition truthy {A : Type} (xs : list A) : bool :=
  match xs with
  | [] => false
  | _ :: _ => true
  end.

End Py.

(** ** Chunker ([create_triples_from_text], the loop header and slice) *)

(** The windows [text[i:i + chunk_size]] for [i in range(0, len(text),
    chunk_size)], in the order the loop visits them. *)
Definition split (text : string) (chunk_size : Z) : result (list string) :=
  idxs <- Py.range 0 (Py.len text) chunk_size ;;
  Ok (map (fun i => Py.slice text i (i + chunk_size)) idxs).

(** Ceiling of a quotient of naturals, for positive [d]. *)
Definition ceil_div (n d : nat) : nat := (n + d - 1) / d.

(** The first [n] windows of [sz] characters of [s], by offset. *)
Definition windows (sz : nat) (s : string) (n : nat) : list string :=
  map (fun k => Py.take sz (Py.drop (k * sz) s)) (seq 0 n).

(** ** Data model *)

(** The dict built at lines 87-93. *)
Record Triple : Type := mkTriple {
  subject : string;
  predicate : string;
  object : string;
  source_title : string;
  source_url : string
}.

(** [paper_info = {"title": ..., "url": ...}] (line 55). *)
Record PaperInfo : Type := mkPaperInfo {
  title : string;
  url : string
}.

(** What the program reads of a spaCy token: [tok.text], [tok.dep_],
    [tok.lemma_] and the tokens of [tok.subtree] in document order. *)
Class TokenAPI (Token : Type) : Type := {
  text : Token -> string;
  dep_ : Token -> string;
  lemma_ : Token -> string;
  subtree : Token -> list Token
}.

(** A sentence of [doc.sents]: its tokens in order and [sent.root].  A
    provider that designates no root hands out [None]. *)
Record Sentence (Token : Type) : Type := mkSentence {
  tokens : list Token;
  root : option Token
}.

Arguments mkSentence {Token} tokens root.
Arguments tokens {Token} s.
Arguments root {Token} s.

(** ** Triple extractor ([create_triples_from_text], lines 78-93) *)

Section Extractor.

Context {Token : Type} `{TokenAPI Token}.

(** line 79 *)
Definition subjects (sent : Sentence Token) : list Token :=
  filter (fun tok => Py.str_in "subj" (dep_ tok)) (tokens sent).

(** line 80 *)
Definition objects (sent : Sentence Token) : list Token :=
  filter (fun tok => Py.str_in "obj" (dep_ tok)) (tokens sent).

(** [" ".join(t.text for t in tok.subtree)] (lines 85-86) *)
Definition phrase (tok : Token) : string :=
  Py.join " " (map text (subtree tok)).

(** lines 87-93 *)
Definition make_triple (paper_info : PaperInfo) (verb sub obj : Token)
  : Triple :=
  {| subject := phrase sub;
     predicate := lemma_ verb;
     object := phrase obj;
     source_title := title paper_info;
     source_url := url paper_info |}.

(** [verb = sent.root], whose [lemma_] is read on every iteration of the
    loops below; both loops run at least once when the guard of line 81
    holds, so a missing root raises [AttributeError] before the sentence
    contributes anything. *)
Definition sent_root (sent : Sentence Token) : result Token :=
  match root sent with
  | Some verb => Ok verb
  | None => Raise (AttributeError "'NoneType' object has no attribute 'lemma_'")
  end.

(** The nested loops of lines 83-93, appending to [triples]. *)
Definition pair_loops (paper_info : PaperInfo) (verb : Token)
  (subjects objects : list Token) (triples : list Triple) : list Triple :=
  fold_left
    (fun acc sub =>
       fold_left
         (fun acc' obj => acc' ++ [make_triple paper_info verb sub obj])
         objects acc)
    subjects triples.

(** Body of [for sent in doc.sents] (lines 79-93). *)
Definition sentence_body (paper_info : PaperInfo) (sent : Sentence Token)
  (triples : list Triple) : result (list Triple) :=
  let subjects := subjects sent in
  let objects := objects sent in
  if Py.truthy subjects && Py.truthy objects then
    verb <- sent_root sent ;;
    Ok (pair_loops paper_info verb subjects objects triples)
  else Ok triples.

(** [for sent in doc.sents: ...] over the accumulated [triples]. *)
Definition extract_into (paper_info : PaperInfo)
  (sents : list (Sentence Token)) (triples : list Triple)
  : result (list Triple) :=
  for_each sents (sentence_body paper_info) triples.

(** The Extractor of one chunk, started on an empty list. *)
Definition extract (sents : list (Sentence Token)) (paper_info : PaperInfo)
  : result (list Triple) :=
  extract_into paper_info sents [].

(** The triples of the pairs of [subs] and [objs] under [verb], subjects
    outer and objects inner. *)
Definition cartesian (paper_info : PaperInfo) (verb : Token)
  (subs objs : list Token) : list Triple :=
  flat_map (fun sub => map (make_triple paper_info verb sub) objs) subs.

(** *** The whole of [create_triples_from_text] *)

(** [self.nlp(chunk)] followed by [doc.sents]; the parser may raise. *)
Variable nlp : string -> result (list (Sentence Token)).

(** Body of [for i in range(0, len(text), chunk_size)] (lines 76-93). *)
Definition chunk_body (text : string) (paper_info : PaperInfo)
  (chunk_size : Z) (i : Z) (triples : list Triple) : result (list Triple) :=
  let chunk := Py.slice text i (i + chunk_size) in
  sents <- nlp chunk ;;
  extract_into paper_info sents triples.

Definition create_triples_from_text (text : string) (paper_info : PaperInfo)
  (chunk_size : Z) : result (list Triple) :=
  idxs <- Py.range 0 (Py.len text) chunk_size ;;
  for_each idxs (chunk_body text paper_info chunk_size) [].

End Extractor.

(** The default of the keyword argument [chunk_size]. *)
Definition default_chunk_size : Z := 50000.

(** ** Per-document pipeline ([process_single_paper], lines 47-70) *)

Definition STORAGE_PATH : string := "./papers".

Module Arxiv.
(** The fields of [arxiv.Result] the program reads. *)
Record Result : Type := mkResult {
  title : string;
  entry_id : string
}.
End Arxiv.

(** The character class of the pattern of line 50: backslash, slash, star,
    question mark, colon, double quote, angle brackets and bar. *)
Definition unsafe_chars : list ascii :=
  ["\"; "/"; "*"; "?"; ":"; ascii_of_nat 34; "<"; ">"; "|"]%char.

Definition is_unsafe (c : ascii) : bool :=
  existsb (Ascii.eqb c) unsafe_chars.

(** [re.sub] of that class by the empty string: every character of the
    class is removed. *)
Fixpoint re_sub_unsafe (s : string) : string :=
  match s with
  | EmptyString => EmptyString
  | String c s' =>
      if is_unsafe c then re_sub_unsafe s' else String c (re_sub_unsafe s')
  end.

(** [s.replace('-\n', '')] *)
Fixpoint replace_hyphen_newline (s : string) : string :=
  match s with
  | EmptyString => EmptyString
  | String a t =>
      match t with
      | EmptyString => String a EmptyString
      | String b r =>
          if (Ascii.eqb a "-" && Ascii.eqb b (ascii_of_nat 10))%bool
          then replace_hyphen_newline r
          else String a (replace_hyphen_newline t)
      end
  end.

Fixpoint ends_with_slash (s : string) : bool :=
  match s with
  | EmptyString => false
  | String c EmptyString => Ascii.eqb c "/"
  | String _ s' => ends_with_slash s'
  end.

(** [os.path.join(a, b)] (POSIX) *)
Definition os_path_join (a b : string) : string :=
  match b with
  | String "/" _ => b
  | _ =>
      match a with
      | EmptyString => b
      | _ => if ends_with_slash a then (a ++ b)%string
             else (a ++ "/" ++ b)%string
      end
  end.

Definition str_truthy (s : string) : bool :=
  match s with
  | EmptyString => false
  | String _ _ => true
  end.

(** The file name and the path of a paper's PDF (lines 50-51). *)
Definition pdf_name (paper_result : Arxiv.Result) : string :=
  (re_sub_unsafe (Arxiv.title paper_result) ++ ".pdf")%string.

Definition pdf_path (paper_result : Arxiv.Result) : string :=
  os_path_join STORAGE_PATH (pdf_name paper_result).

Section Pipeline.

Context {Token : Type} `{TokenAPI Token}.

(** The collaborators of the pipeline; each may raise. *)
Variable nlp : string -> result (list (Sentence Token)).
(** [os.path.exists(pdf_path)] *)
Variable pdf_exists : string -> bool.
(** [paper_result.download_pdf(dirpath=..., filename=...)] *)
Variable download_pdf : Arxiv.Result -> string -> string -> result unit.
(** [with fitz.open(pdf_path) as doc: " ".join(page.get_text() for page in doc)] *)
Variable fitz_text : string -> result string.
(** [re.sub(r'\s+', ' ', text)] *)
Variable re_sub_whitespace : string -> string.

(** lines 64-70 *)
Definition extract_text_from_pdf (pdf_path : string) : result string :=
  try_except
    (text <- fitz_text pdf_path ;;
     Ok (replace_hyphen_newline (re_sub_whitespace text)))
    (fun _ => Ok EmptyString).

(** The body of the [try] of lines 50-60. *)
Definition process_body (paper_result : Arxiv.Result)
  : result (list Triple) :=
  let safe_title := re_sub_unsafe (Arxiv.title paper_result) in
  let pdf_path := os_path_join STORAGE_PATH (safe_title ++ ".pdf")%string in
  _ <- (if negb (pdf_exists pdf_path)
        then download_pdf paper_result STORAGE_PATH
               (safe_title ++ ".pdf")%string
        else Ok tt) ;;
  let paper_info := {| title := Arxiv.title paper_result;
                       url := Arxiv.entry_id paper_result |} in
  text <- extract_text_from_pdf pdf_path ;;
  if negb (str_truthy text) then Ok []
  else create_triples_from_text nlp text paper_info default_chunk_size.

(** lines 47-62 *)
Definition process_single_paper (paper_result : Arxiv.Result)
  : result (list Triple) :=
  try_except (process_body paper_result) (fun _ => Ok []).

End Pipeline.

(** ** Triple store (lines 96-112, 135-136, 187-189) *)

Module Store.

(** Values of [json.load]. *)
#[local] Set Warnings "-register-all".
Inductive json : Type :=
| JNull
| JBool (b : bool)
| JNum (z : Z)
| JStr (s : string)
| JArr (items : list json)
| JObj (members : list (string * json)).

Definition triple_json (t : Triple) : json :=
  JObj [("subject", JStr (subject t));
        ("predicate", JStr (predicate t));
        ("object", JStr (object t));
        ("source_title", JStr (source_title t));
        ("source_url", JStr (source_url t))].

(** The file at [OUTPUT_PATH], as [open(..., 'r', encoding='utf-8')] and
    [json.load] see it.  [Json v] is a document that [json.load] loads as
    [v] and [json.dump] can write back; documents the decoder gives up on
    for another reason than their syntax (nesting beyond the recursion
    limit, integers beyond the digit limit) and strings the encoder cannot
    write as UTF-8 are not among these contents. *)
Inductive FileContent : Type :=
| Json (v : json)          (* UTF-8 text of a JSON document *)
| BadJson (raw : string)   (* UTF-8 text that is not JSON, e.g. empty *)
| BadBytes.                (* bytes that are not UTF-8 *)

Inductive IOEvent : Type := EvExists | EvRead | EvWrite | EvRemove.

(** [file = None]: nothing at [OUTPUT_PATH]. *)
Record World : Type := mkWorld {
  file : option FileContent;
  trace : list IOEvent
}.

Definition IO (A : Type) : Type := World -> result A * World.

Definition ret {A : Type} (a : A) : IO A := fun w => (Ok a, w).

Definition iobind {A B : Type} (m : IO A) (k : A -> IO B) : IO B :=
  fun w =>
    match m w with
    | (Ok a, w') => k a w'
    | (Raise e, w') => (Raise e, w')
    end.

Definition lift {A : Type} (r : result A) : IO A := fun w => (r, w).

Definition log (ev : IOEvent) (w : World) : World :=
  {| file := file w; trace := trace w ++ [ev] |}.

Declare Scope io_scope.
Delimit Scope io_scope with io.
Notation "x <- m ;; k" := (iobind m (fun x => k))
  (at level 100, m at next level, right associativity) : io_scope.

(** [os.path.exists(OUTPUT_PATH)] *)
Definition os_path_exists : IO bool :=
  fun w =>
    (Ok (match file w with Some _ => true | None => false end),
     log EvExists w).

(** [with open(OUTPUT_PATH, 'r', encoding='utf-8') as f: json.load(f)] *)
Definition json_load : IO json :=
  fun w =>
    (match file w with
     | None => Raise (OSError "FileNotFoundError")
     | Some (Json v) => Ok v
     | Some (BadJson _) => Raise JSONDecodeError
     | Some BadBytes => Raise UnicodeDecodeError
     end,
     log EvRead w).

(** [with open(OUTPUT_PATH, 'w', encoding='utf-8') as f: json.dump(data, f, ...)],
    in the directory line 134 created, on data the encoder accepts. *)
Definition json_dump (data : json) : IO unit :=
  fun w => (Ok tt, {| file := Some (Json data); trace := trace w ++ [EvWrite] |}).

(** [os.remove(OUTPUT_PATH)] *)
Definition os_remove : IO unit :=
  fun w =>
    match file w with
    | None => (Raise (OSError "FileNotFoundError"), log EvRemove w)
    | Some _ => (Ok tt, {| file := None; trace := trace w ++ [EvRemove] |})
    end.

(** [try: body except json.JSONDecodeError: pass], the value after the
    statement being the one [body] assigned or else [dflt]. *)
Definition try_except_JSONDecodeError {A : Type} (body : IO A) (dflt : A)
  : IO A :=
  fun w =>
    match body w with
    | (Raise JSONDecodeError, w') => (Ok dflt, w')
    | other => other
    end.

(** [existing_data.extend(new_triples)]: only a list has [extend]. *)
Definition extend (existing_data : json) (new_triples : list Triple)
  : result json :=
  match existing_data with
  | JArr items => Ok (JArr (items ++ map triple_json new_triples))
  | _ => Raise (AttributeError "object has no attribute 'extend'")
  end.

(** lines 96-112 *)
Definition append_triples_to_json (new_triples : list Triple) : IO unit :=
  (if negb (Py.truthy new_triples) then ret tt
   else
     found <- os_path_exists ;;
     existing_data <-
       (if found then try_except_JSONDecodeError json_load (JArr [])
        else ret (JArr [])) ;;
     data <- lift (extend existing_data new_triples) ;;
     json_dump data)%io.

(** The Store's [merge]. *)
Definition merge : list Triple -> IO unit := append_triples_to_json.

(** The Store's [clear] (lines 135-136). *)
Definition clear : IO unit :=
  (found <- os_path_exists ;;
   if found then os_remove else ret tt)%io.

(** Lines 187-189: [st.session_state['results']] after the statement,
    given its value [session] before ([None]: the key is absent). *)
Definition load_results (session : option json) : IO (option json) :=
  (found <- os_path_exists ;;
   if found then (v <- json_load ;; ret (Some v)) else ret session)%io.

(** What a session that held no results shows after lines 187-192: the
    array lines 187-189 read from the file, and nothing, rendered as the
    empty array, when there is no file (line 192 then finds no key).  A
    session that held results keeps them in that case: see
    [load_results]. *)
Definition load_all : IO json :=
  (r <- load_results None ;;
   ret (match r with Some v => v | None => JArr [] end))%io.

(** Merging batches one after the other. *)
Fixpoint merge_all (batches : list (list Triple)) : IO unit :=
  match batches with
  | [] => ret tt
  | b :: rest => (_ <- merge b ;; merge_all rest)%io
  end.

(** The persisted collection is the sequence [l] of triples: no file yet
    and nothing merged, or the file is the JSON array of [l]. *)
Definition holds (w : World) (l : list Triple) : Prop :=
  (file w = None /\ l = []) \/
  file w = Some (Json (JArr (map triple_json l))).

(** The states of [OUTPUT_PATH] that cannot be parsed. *)
Definition unparsable (c : FileContent) : bool :=
  match c with
  | Json _ => false
  | BadJson _ => true
  | BadBytes => true
  end.

End Store.

(** ** A concrete provider of parsed structure

    A document in the style of spaCy: an array of words, each with the index
    of its syntactic head (the root being its own head).  A token is a
    position in its document, and its subtree is made of the positions it
    governs, in document order. *)

Module Doc.

Record Word : Type := mkWord {
  w_text : string;
  w_dep : string;
  w_lemma : string;
  w_head : nat
}.

Record Tok : Type := mkTok {
  doc : list Word;
  i : nat
}.

Definition word (t : Tok) : option Word := nth_error (doc t) (i t).

(** Does following heads from position [j] reach position [anc]? *)
Fixpoint governs (fuel : nat) (d : list Word) (anc j : nat) : bool :=
  (j =? anc)%nat ||
  match fuel with
  | O => false
  | S fuel' =>
      match nth_error d j with
      | Some w => if (w_head w =? j)%nat then false
                  else governs fuel' d anc (w_head w)
      | None => false
      end
  end.

Definition tok_subtree (t : Tok) : list Tok :=
  map (mkTok (doc t))
      (filter (governs (length (doc t)) (doc t) (i t))
              (seq 0 (length (doc t)))).

Definition field (f : Word -> string) (t : Tok) : string :=
  match word t with
  | Some w => f w
  | None => EmptyString
  end.

#[global] Instance Tok_API : TokenAPI Tok := {|
  text := field w_text;
  dep_ := field w_dep;
  lemma_ := field w_lemma;
  subtree := tok_subtree
|}.

(** The sentence made of positions [lo .. lo + n - 1] of [d], rooted at
    position [r]. *)
Definition span (d : list Word) (lo n r : nat) : Sentence Tok :=
  {| tokens := map (mkTok d) (seq lo n);
     root := Some (mkTok d r) |}.

(** "Researchers proposed a model. The model improves accuracy." *)
Definition scenario_text : string :=
  "Researchers proposed a model. The model improves accuracy.".

Definition scenario_doc : list Word :=
  [ mkWord "Researchers" "nsubj" "researcher" 1;
    mkWord "proposed" "ROOT" "propose" 1;
    mkWord "a" "det" "a" 3;
    mkWord "model" "dobj" "model" 1;
    mkWord "." "punct" "." 1;
    mkWord "The" "det" "the" 6;
    mkWord "model" "nsubj" "model" 7;
    mkWord "improves" "ROOT" "improve" 7;
    mkWord "accuracy" "dobj" "accuracy" 7;
    mkWord "." "punct" "." 7 ].

Definition scenario_sents : list (Sentence Tok) :=
  [ span scenario_doc 0 5 1; span scenario_doc 5 5 7 ].

(** "She and he like tea and coffee": two subjects, two objects. *)
Definition pairs_doc : list Word :=
  [ mkWord "She" "nsubj" "she" 3;
    mkWord "and" "cc" "and" 0;
    mkWord "he" "nsubj" "he" 3;
    mkWord "like" "ROOT" "like" 3;
    mkWord "tea" "dobj" "tea" 3;
    mkWord "and" "cc" "and" 4;
    mkWord "coffee" "dobj" "coffee" 3 ].

Definition pairs_sent : Sentence Tok := span pairs_doc 0 7 3.

(** A sentence without subject or object, and one whose provider
    designated no root. *)
Definition bare_sent : Sentence Tok :=
  {| tokens := [ mkTok [mkWord "Hello" "ROOT" "hello" 0] 0 ];
     root := None |}.

(** A parser that knows the scenario text and nothing else. *)
Definition scenario_nlp (chunk : string) : result (list (Sentence Tok)) :=
  if String.eqb chunk scenario_text then Ok scenario_sents else Ok [].

(** A parser that always fails. *)
Definition failing_nlp (chunk : string) : result (list (Sentence Tok)) :=
  Raise (ValueError "text exceeds nlp.max_length").

Definition info : PaperInfo :=
  {| title := "A paper"; url := "http://arxiv.org/abs/0000.00000" |}.

(** The two triples the specification's scenario expects. *)
Definition scenario_triples : list Triple :=
  [ mkTriple "Researchers" "propose" "a model" (title info) (url info);
    mkTriple "The model" "improve" "accuracy" (title info) (url info) ].

Definition a_triple : Triple :=
  mkTriple "Researchers" "propose" "a model" (title info) (url info).

Definition paper : Arxiv.Result :=
  {| Arxiv.title := "What is a model?";
     Arxiv.entry_id := "http://arxiv.org/abs/0000.00000" |}.

End Doc.

(** ** The analysis loop of [main] (lines 156-181)

    The progress bar and the estimate of the remaining time only draw on the
    page; the loop's effect on the store and on [total_triples_found] is
    this. *)

Module Main.

Import Store.

Section Loop.

Context {Token : Type} `{TokenAPI Token}.

Variable nlp : string -> result (list (Sentence Token)).
Variable pdf_exists : string -> bool.
Variable download_pdf : Arxiv.Result -> string -> string -> result unit.
Variable fitz_text : string -> result string.
Variable re_sub_whitespace : string -> string.

(** Lines 178-181, on the running [total_triples_found]. *)
Definition paper_step (paper : Arxiv.Result) (total_triples_found : Z)
  : IO Z :=
  (triples <- lift
                (process_single_paper nlp pdf_exists download_pdf fitz_text
                   re_sub_whitespace paper) ;;
   if Py.truthy triples then
     let total_triples_found :=
       (total_triples_found + Z.of_nat (length triples))%Z in
     _ <- append_triples_to_json triples ;;
     ret total_triples_found
   else ret total_triples_found)%io.

(** [for i, paper in enumerate(papers): ...] *)
Fixpoint papers_loop (papers : list Arxiv.Result) (total_triples_found : Z)
  : IO Z :=
  match papers with
  | [] => ret total_triples_found
  | paper :: rest =>
      (total <- paper_step paper total_triples_found ;;
       papers_loop rest total)%io
  end.

(** The triples a paper yields: those [process_single_paper] returns. *)
Definition paper_triples (paper : Arxiv.Result) : list Triple :=
  match process_single_paper nlp pdf_exists download_pdf fitz_text
          re_sub_whitespace paper with
  | Ok triples => triples
  | Raise _ => []
  end.

End Loop.

End Main.

(** ** Predicates on strings and triples used in the statements *)

Fixpoint string_forallb (p : ascii -> bool) (s : string) : bool :=
  match s with
  | EmptyString => true
  | String c s' => p c && string_forallb p s'
  end.

(** No character of [s] is in the class removed at line 50. *)
Definition is_safe (s : string) : bool :=
  string_forallb (fun c => negb (is_unsafe c)) s.

(** [s] holds no line feed. *)
Definition no_newline (s : string) : bool :=
  string_forallb (fun c => negb (Ascii.eqb c (ascii_of_nat 10))) s.

(** [s] holds no slash. *)
Definition no_slash (s : string) : bool :=
  string_forallb (fun c => negb (Ascii.eqb c "/")) s.

(** The triple is attributed to the document [paper_info]. *)
Definition attributed (paper_info : PaperInfo) (t : Triple) : Prop :=
  source_title t = title paper_info /\ source_url t = url paper_info.

(** The store holds exactly the triples [l] collected so far: no file while
    nothing was collected, and afterwards the file with the array of [l]. *)
Definition collected (w : Store.World) (l : list Triple) : Prop :=
  (Store.file w = None /\ l = []) \/
  (Store.file w = Some (Store.Json (Store.JArr (map Store.triple_json l))) /\
   l <> []).

(** The number of triples the sentences yield: subjects times objects. *)
Definition triple_volume {Token : Type} `{TokenAPI Token}
  (sents : list (Sentence Token)) : nat :=
  list_sum (map (fun sent => length (subjects sent) * length (objects sent))
              sents).

(** A parser that refuses any chunk longer than [limit]. *)
Definition bounded_nlp (limit : Z) (chunk : string)
  : result (list (Sentence Doc.Tok)) :=
  if (limit <? Py.len chunk)%Z
  then Raise (ValueError "text exceeds nlp.max_length")
  else Doc.scenario_nlp chunk.

(** The scenario text cut at 30 characters, and the parse of each half. *)
Definition first_chunk : string := "Researchers proposed a model. ".

Definition second_chunk : string := "The model improves accuracy.".

Definition first_doc : list Doc.Word :=
  [ Doc.mkWord "Researchers" "nsubj" "researcher" 1;
    Doc.mkWord "proposed" "ROOT" "propose" 1;
    Doc.mkWord "a" "det" "a" 3;
    Doc.mkWord "model" "dobj" "model" 1;
    Doc.mkWord "." "punct" "." 1 ].

Definition second_doc : list Doc.Word :=
  [ Doc.mkWord "The" "det" "the" 1;
    Doc.mkWord "model" "nsubj" "model" 2;
    Doc.mkWord "improves" "ROOT" "improve" 2;
    Doc.mkWord "accuracy" "dobj" "accuracy" 2;
    Doc.mkWord "." "punct" "." 2 ].

Definition second_triple : Triple :=
  mkTriple "The model" "improve" "accuracy"
    (title Doc.info) (url Doc.info).

(** A parser that knows the two halves. *)
Definition chunked_nlp (chunk : string) : result (list (Sentence Doc.Tok)) :=
  if String.eqb chunk first_chunk then Ok [Doc.span first_doc 0 5 1]
  else if String.eqb chunk second_chunk then Ok [Doc.span second_doc 0 5 2]
  else Ok [].

(** A parser that knows the first half and fails on anything else. *)
Definition halting_nlp (chunk : string) : result (list (Sentence Doc.Tok)) :=
  if String.eqb chunk first_chunk then Ok [Doc.span first_doc 0 5 1]
  else Raise (ValueError "text exceeds nlp.max_length").

(* ================================================================== *)
(** * Part II: properties *)
(* ================================================================== *)

(** ** Strings *)

Lemma take_drop (n : nat) (s : string) :
  (Py.take n s ++ Py.drop n s)%string = s.
Proof.
  revert s; induction n as [|n IH]; intros [|c s]; simpl; auto.
  now rewrite IH.
Qed.

Lemma length_take (n : nat) (s : string) :
  String.length (Py.take n s) = Nat.min n (String.length s).
Proof.
  revert s; induction n as [|n IH]; intros [|c s]; simpl; auto.
Qed.

Lemma length_drop (n : nat) (s : string) :
  String.length (Py.drop n s) = String.length s - n.
Proof.
  revert s; induction n as [|n IH]; intros [|c s]; simpl; auto.
Qed.

Lemma take_all (n : nat) (s : string) :
  String.length s <= n -> Py.take n s = s.
Proof.
  revert s; induction n as [|n IH]; intros [|c s]; simpl; intros H;
    auto; try lia.
  now rewrite IH by lia.
Qed.

Lemma drop_all (n : nat) (s : string) :
  String.length s <= n -> Py.drop n s = EmptyString.
Proof.
  revert s; induction n as [|n IH]; intros [|c s]; simpl; intros H;
    auto; try lia.
  apply IH; lia.
Qed.

Lemma drop_drop (n m : nat) (s : string) :
  Py.drop n (Py.drop m s) = Py.drop (m + n) s.
Proof.
  revert s; induction m as [|m IH]; intros s; simpl; auto.
  destruct s as [|c s]; simpl.
  - now destruct n.
  - apply IH.
Qed.

Lemma take_min (n : nat) (s : string) :
  Py.take (Nat.min n (String.length s)) s = Py.take n s.
Proof.
  destruct (Nat.le_ge_cases n (String.length s)) as [H|H].
  - now rewrite Nat.min_l.
  - rewrite Nat.min_r by lia. now rewrite !take_all by lia.
Qed.

Lemma take_substring (n m : nat) (s : string) :
  Py.take m (Py.drop n s) = String.substring n m s.
Proof.
  revert s m; induction n as [|n IH]; intros s m.
  - simpl Py.drop. revert m; induction s as [|c s IHs]; intros [|m]; simpl; auto.
    now rewrite IHs.
  - destruct s as [|c s]; simpl.
    + now destruct m.
    + apply IH.
Qed.


Lemma join_empty_cons (x : string) (xs : list string) :
  Py.join EmptyString (x :: xs) = (x ++ Py.join EmptyString xs)%string.
Proof.
  unfold Py.join. destruct xs as [|y ys]; simpl.
  - clear. induction x as [|c x IH]; simpl; congruence.
  - reflexivity.
Qed.

(** ** Chunker *)


Lemma windows_succ (sz : nat) (s : string) (n : nat) :
  windows sz s (S n) = Py.take sz s :: windows sz (Py.drop sz s) n.
Proof.
  unfold windows. simpl. rewrite <- seq_shift, map_map.
  f_equal. apply map_ext. intros k. now rewrite drop_drop.
Qed.

Lemma windows_join (sz : nat) (n : nat) : forall s,
  String.length s <= n * sz -> Py.join EmptyString (windows sz s n) = s.
Proof.
  induction n as [|n IH]; intros s Hlen.
  - destruct s; simpl in *; [reflexivity | lia].
  - rewrite windows_succ, join_empty_cons, IH.
    + apply take_drop.
    + rewrite length_drop. simpl in Hlen. lia.
Qed.

Lemma windows_length (sz : nat) (s : string) (n : nat) :
  length (windows sz s n) = n.
Proof. unfold windows. now rewrite length_map, length_seq. Qed.

Lemma windows_nth (sz : nat) (s : string) (n k : nat) (c : string) :
  nth_error (windows sz s n) k = Some c ->
  k < n /\ c = Py.take sz (Py.drop (k * sz) s).
Proof.
  unfold windows. intros Hk.
  rewrite nth_error_map, nth_error_seq in Hk.
  destruct (Nat.ltb_spec k n); simpl in Hk; [|discriminate].
  split; [assumption|congruence].
Qed.

Lemma ceil_div_bounds (n d : nat) :
  0 < d -> n <= ceil_div n d * d /\ (0 < n -> (ceil_div n d - 1) * d < n).
Proof.
  intros Hd. unfold ceil_div.
  pose proof (Nat.div_mod_eq (n + d - 1) d) as E.
  pose proof (Nat.mod_upper_bound (n + d - 1) d ltac:(lia)) as B.
  set (q := (n + d - 1) / d) in *. set (r := (n + d - 1) mod d) in *.
  split; [nia|]. intros Hn.
  destruct q as [|q]; [nia|]. simpl. rewrite Nat.sub_0_r. nia.
Qed.

Lemma ceil_div_zero (d : nat) : 0 < d -> ceil_div 0 d = 0.
Proof.
  intros Hd. unfold ceil_div. apply Nat.div_small. lia.
Qed.

Lemma range_length_pos (n : nat) (size : Z) :
  (0 < size)%Z ->
  Py.range_length 0 (Z.of_nat n) size = Z.of_nat (ceil_div n (Z.to_nat size)).
Proof.
  intros Hs. unfold Py.range_length.
  destruct (Z.ltb_spec 0 size); [|lia].
  destruct (Z.ltb_spec 0 (Z.of_nat n)) as [Hn|Hn].
  - unfold ceil_div. rewrite Nat2Z.inj_div, Z2Nat.id by lia.
    replace (Z.of_nat (n + Z.to_nat size - 1))
      with ((Z.of_nat n - 0 - 1) + 1 * size)%Z by lia.
    rewrite Z.div_add by lia. lia.
  - assert (n = 0) by lia. subst n. rewrite ceil_div_zero by lia. reflexivity.
Qed.

Lemma slice_window (s : string) (size : Z) (k : nat) :
  (0 < size)%Z ->
  k * Z.to_nat size < String.length s ->
  Py.slice s (0 + Z.of_nat k * size) (0 + Z.of_nat k * size + size) =
  Py.take (Z.to_nat size) (Py.drop (k * Z.to_nat size) s).
Proof.
  intros Hs Hk. unfold Py.slice, Py.clip, Py.len.
  set (n := String.length s) in *.
  assert (E : (Z.of_nat k * size)%Z = Z.of_nat (k * Z.to_nat size)) by lia.
  rewrite !Z.add_0_l, E. set (o := k * Z.to_nat size) in *.
  destruct (Z.ltb_spec (Z.of_nat o) 0); [lia|].
  destruct (Z.ltb_spec (Z.of_nat o + size) 0); [lia|].
  rewrite (Z.min_l (Z.of_nat o)) by lia.
  destruct (Z.ltb_spec (Z.of_nat o) (Z.min (Z.of_nat o + size) (Z.of_nat n)));
    [|lia].
  rewrite Nat2Z.id.
  rewrite <- (take_min (Z.to_nat size)), length_drop. f_equal. fold n. lia.
Qed.

Lemma split_windows (text : string) (size : Z) :
  (0 < size)%Z ->
  split text size =
  Ok (windows (Z.to_nat size) text
        (ceil_div (String.length text) (Z.to_nat size))).
Proof.
  intros Hs. unfold split, Py.range, Py.len.
  destruct (Z.eqb_spec size 0); [lia|]. simpl bind.
  rewrite range_length_pos, Nat2Z.id by lia.
  f_equal. unfold windows. rewrite map_map.
  apply map_ext_in. intros k Hk. apply in_seq in Hk.
  apply slice_window; [lia|].
  destruct (ceil_div_bounds (String.length text) (Z.to_nat size)) as [_ B];
    [lia|].
  destruct (String.length text) as [|len'] eqn:En.
  - rewrite ceil_div_zero in Hk by lia. lia.
  - specialize (B ltac:(lia)). nia.
Qed.

Lemma window_length (sz : nat) (s : string) (k : nat) :
  String.length (Py.take sz (Py.drop (k * sz) s)) =
  Nat.min sz (String.length s - k * sz).
Proof. now rewrite length_take, length_drop. Qed.

(** C2 (chunk coverage).  For every text and every positive [max_size] the
    chunker returns a sequence of chunks whose concatenation in order is the
    text; chunk number [k] is the substring of the text that starts at offset
    [k * max_size], so the chunks are consecutive and do not overlap; every
    chunk but the last has exactly [max_size] characters and none has more;
    and an empty text gives no chunk at all. *)
Theorem chunk_coverage (text : string) (max_size : Z) :
  (0 < max_size)%Z ->
  exists chunks : list string,
    split text max_size = Ok chunks /\
    Py.join EmptyString chunks = text /\
    (forall k c, nth_error chunks k = Some c ->
       c = String.substring (k * Z.to_nat max_size) (String.length c) text) /\
    (forall k c, nth_error chunks k = Some c -> S k < length chunks ->
       Py.len c = max_size) /\
    (forall c, In c chunks -> (Py.len c <= max_size)%Z) /\
    (text = EmptyString -> chunks = []).
Proof.
  intros Hs. set (sz := Z.to_nat max_size).
  assert (Hsz : 0 < sz) by (unfold sz; lia).
  destruct (ceil_div_bounds (String.length text) sz Hsz) as [Hup Hlow].
  exists (windows sz text (ceil_div (String.length text) sz)).
  split; [now apply split_windows|].
  split; [now apply windows_join|].
  split; [|split; [|split]].
  - intros k c Hk. apply windows_nth in Hk as [_ ->].
    rewrite <- take_substring, window_length, <- length_drop.
    now rewrite take_min.
  - intros k c Hk Hlast. rewrite windows_length in Hlast.
    apply windows_nth in Hk as [_ ->].
    unfold Py.len. rewrite window_length.
    assert (0 < String.length text) by (destruct (String.length text);
      [rewrite ceil_div_zero in Hlast by assumption; lia | lia]).
    specialize (Hlow ltac:(assumption)). unfold sz in *. nia.
  - intros c Hc. apply In_nth_error in Hc as [k Hk].
    apply windows_nth in Hk as [_ ->].
    unfold Py.len. rewrite window_length. unfold sz. lia.
  - intros ->. simpl. now rewrite ceil_div_zero.
Qed.

Lemma chunk_coverage_witness :
  exists chunks : list string,
    split "abcdefghijklmnopqrstuvwxy" 10 = Ok chunks /\
    Py.join EmptyString chunks = "abcdefghijklmnopqrstuvwxy" /\
    (forall k c, nth_error chunks k = Some c ->
       c = String.substring (k * Z.to_nat 10) (String.length c)
             "abcdefghijklmnopqrstuvwxy") /\
    (forall k c, nth_error chunks k = Some c -> S k < length chunks ->
       Py.len c = 10%Z) /\
    (forall c, In c chunks -> (Py.len c <= 10)%Z) /\
    ("abcdefghijklmnopqrstuvwxy" = EmptyString -> chunks = []).
Proof. apply (chunk_coverage "abcdefghijklmnopqrstuvwxy" 10). reflexivity. Defined.

(** The second scenario of the specification: a 25-character text cut with
    [max_chunk_size = 10] gives chunks of 10, 10 and 5 characters. *)
Example split_25_by_10 :
  split "abcdefghijklmnopqrstuvwxy" 10 = Ok ["abcdefghij"; "klmnopqrst"; "uvwxy"].
Proof. reflexivity. Qed.

(** C9 (chunk count).  For every non-empty text and every positive
    [max_size], every chunk holds at least one character and the number [n]
    of chunks is the ceiling of [len(text) / max_size]: it is
    [(len + max_size - 1) / max_size], the one [n] with
    [(n - 1) * max_size < len <= n * max_size]. *)
Theorem chunk_count (text : string) (max_size : Z) :
  text <> EmptyString ->
  (0 < max_size)%Z ->
  exists chunks : list string,
    split text max_size = Ok chunks /\
    (forall c, In c chunks -> (1 <= Py.len c)%Z) /\
    length chunks = ceil_div (String.length text) (Z.to_nat max_size) /\
    Z.of_nat (length chunks) = ((Py.len text + max_size - 1) / max_size)%Z /\
    ((Z.of_nat (length chunks) - 1) * max_size < Py.len text
       <= Z.of_nat (length chunks) * max_size)%Z.
Proof.
  intros Hne Hs. set (sz := Z.to_nat max_size).
  assert (Hsz : 0 < sz) by (unfold sz; lia).
  assert (Hlen : 0 < String.length text) by (destruct text; simpl; [congruence|lia]).
  destruct (ceil_div_bounds (String.length text) sz Hsz) as [Hup Hlow].
  specialize (Hlow Hlen).
  exists (windows sz text (ceil_div (String.length text) sz)).
  rewrite windows_length.
  split; [now apply split_windows|].
  split; [|split; [reflexivity|split]].
  - intros c Hc. apply In_nth_error in Hc as [k Hk].
    apply windows_nth in Hk as [Hk ->].
    unfold Py.len. rewrite window_length. nia.
  - unfold ceil_div, Py.len. rewrite Nat2Z.inj_div. unfold sz.
    rewrite Z2Nat.id by lia. f_equal. lia.
  - unfold Py.len, sz in *. nia.
Qed.

Lemma chunk_count_witness :
  exists chunks : list string,
    split "abcdefghijklmnopqrstuvwxy" 10 = Ok chunks /\
    (forall c, In c chunks -> (1 <= Py.len c)%Z) /\
    length chunks = ceil_div (String.length "abcdefghijklmnopqrstuvwxy") (Z.to_nat 10) /\
    Z.of_nat (length chunks) =
      ((Py.len "abcdefghijklmnopqrstuvwxy" + 10 - 1) / 10)%Z /\
    ((Z.of_nat (length chunks) - 1) * 10 < Py.len "abcdefghijklmnopqrstuvwxy"
       <= Z.of_nat (length chunks) * 10)%Z.
Proof.
  apply (chunk_count "abcdefghijklmnopqrstuvwxy" 10).
  - discriminate.
  - reflexivity.
Defined.

(** ** Loops in the error monad *)

Lemma for_each_app {A S : Type} (xs ys : list A) (body : A -> S -> result S)
  (st : S) :
  for_each (xs ++ ys) body st =
  (st' <- for_each xs body st ;; for_each ys body st').
Proof.
  revert st; induction xs as [|x xs IH]; intros st; simpl; [reflexivity|].
  destruct (body x st) as [st'|e]; simpl; [apply IH | reflexivity].
Qed.

Lemma for_each_total {A S : Type} (xs : list A) (body : A -> S -> result S) :
  (forall x st, In x xs -> exists st', body x st = Ok st') ->
  forall st, exists st', for_each xs body st = Ok st'.
Proof.
  induction xs as [|x xs IH]; intros Hbody st; simpl.
  - now exists st.
  - destruct (Hbody x st (or_introl eq_refl)) as [st1 ->]. simpl.
    apply IH. intros y st2 Hy. apply Hbody. now right.
Qed.

Lemma for_each_raise {A S : Type} (xs : list A) (body : A -> S -> result S)
  (st : S) (e : exn) :
  for_each xs body st = Raise e ->
  exists x st0, In x xs /\ body x st0 = Raise e.
Proof.
  revert st; induction xs as [|x xs IH]; intros st; simpl; [discriminate|].
  destruct (body x st) as [st'|e'] eqn:E; simpl.
  - intros Hr. destruct (IH _ Hr) as (y & st0 & Hy & Hb).
    exists y, st0. auto.
  - intros [= ->]. exists x, st. auto.
Qed.

(** ** Triple extractor *)

Section ExtractorFacts.

Context {Token : Type} `{TokenAPI Token}.

Lemma inner_loop (f : Token -> Triple) (objs : list Token) :
  forall acc,
    fold_left (fun acc' obj => acc' ++ [f obj]) objs acc = acc ++ map f objs.
Proof.
  induction objs as [|o objs IH]; intros acc; simpl.
  - now rewrite app_nil_r.
  - rewrite IH, <- app_assoc. reflexivity.
Qed.

Lemma pair_loops_cartesian (paper_info : PaperInfo) (verb : Token)
  (subs objs : list Token) :
  forall acc,
    pair_loops paper_info verb subs objs acc =
    acc ++ cartesian paper_info verb subs objs.
Proof.
  unfold pair_loops, cartesian.
  induction subs as [|s subs IH]; intros acc; simpl.
  - now rewrite app_nil_r.
  - rewrite inner_loop, IH, <- app_assoc. reflexivity.
Qed.

Lemma cartesian_length (paper_info : PaperInfo) (verb : Token)
  (subs objs : list Token) :
  length (cartesian paper_info verb subs objs) = length subs * length objs.
Proof.
  unfold cartesian. induction subs as [|s subs IH]; simpl; [reflexivity|].
  now rewrite length_app, length_map, IH.
Qed.

Lemma cartesian_nth (paper_info : PaperInfo) (verb : Token)
  (subs objs : list Token) :
  forall i j sub obj,
    nth_error subs i = Some sub ->
    nth_error objs j = Some obj ->
    nth_error (cartesian paper_info verb subs objs) (i * length objs + j) =
    Some (make_triple paper_info verb sub obj).
Proof.
  unfold cartesian. induction subs as [|s subs IH]; intros i j sub obj Hi Hj.
  - destruct i; discriminate.
  - simpl flat_map. destruct i as [|i]; simpl in Hi.
    + injection Hi as ->. simpl.
      rewrite nth_error_app1
        by (rewrite length_map; apply nth_error_Some; congruence).
      now apply map_nth_error.
    + rewrite nth_error_app2 by (rewrite length_map; simpl; lia).
      rewrite length_map.
      replace (S i * length objs + j - length objs)
        with (i * length objs + j) by (simpl; lia).
      now apply IH.
Qed.

(** The triples one sentence contributes. *)
Lemma sentence_body_rooted (paper_info : PaperInfo) (sent : Sentence Token)
  (verb : Token) (acc : list Triple) :
  root sent = Some verb ->
  subjects sent <> [] ->
  objects sent <> [] ->
  sentence_body paper_info sent acc =
  Ok (acc ++ cartesian paper_info verb (subjects sent) (objects sent)).
Proof.
  intros Hroot Hs Ho. unfold sentence_body, sent_root. rewrite Hroot.
  destruct (subjects sent); [congruence|].
  destruct (objects sent); [congruence|].
  cbn [Py.truthy andb bind]. now rewrite pair_loops_cartesian.
Qed.

Lemma sentence_body_skip (paper_info : PaperInfo) (sent : Sentence Token)
  (acc : list Triple) :
  subjects sent = [] \/ objects sent = [] ->
  sentence_body paper_info sent acc = Ok acc.
Proof.
  intros [E|E]; unfold sentence_body; rewrite E; simpl; auto.
  now rewrite andb_false_r.
Qed.

Lemma sentence_body_acc (paper_info : PaperInfo) (sent : Sentence Token)
  (acc : list Triple) :
  sentence_body paper_info sent acc =
  (ts <- sentence_body paper_info sent [] ;; Ok (acc ++ ts)).
Proof.
  unfold sentence_body.
  destruct (Py.truthy (subjects sent) && Py.truthy (objects sent)).
  - destruct (sent_root sent) as [verb|e]; cbn [bind]; [|reflexivity].
    now rewrite !pair_loops_cartesian.
  - simpl. now rewrite app_nil_r.
Qed.

Lemma extract_into_acc (paper_info : PaperInfo)
  (sents : list (Sentence Token)) :
  forall acc,
    extract_into paper_info sents acc =
    (ts <- extract sents paper_info ;; Ok (acc ++ ts)).
Proof.
  unfold extract, extract_into.
  induction sents as [|s sents IH]; intros acc; simpl.
  - now rewrite app_nil_r.
  - rewrite (sentence_body_acc _ _ acc).
    destruct (sentence_body paper_info s []) as [ts|e]; simpl; [|reflexivity].
    rewrite (IH (acc ++ ts)), (IH ts).
    destruct (for_each sents (sentence_body paper_info) []) as [us|e]; simpl;
      [|reflexivity].
    now rewrite app_assoc.
Qed.

Lemma extract_app (paper_info : PaperInfo)
  (xs ys : list (Sentence Token)) (tx ty : list Triple) :
  extract xs paper_info = Ok tx ->
  extract ys paper_info = Ok ty ->
  extract (xs ++ ys) paper_info = Ok (tx ++ ty).
Proof.
  intros Hx Hy. unfold extract, extract_into.
  rewrite for_each_app. fold (extract_into paper_info xs []).
  fold (extract xs paper_info). rewrite Hx. simpl.
  fold (extract_into paper_info ys tx).
  now rewrite extract_into_acc, Hy.
Qed.

Lemma extract_cons (paper_info : PaperInfo) (sent : Sentence Token)
  (rest : list (Sentence Token)) (ts tr : list Triple) :
  sentence_body paper_info sent [] = Ok ts ->
  extract rest paper_info = Ok tr ->
  extract (sent :: rest) paper_info = Ok (ts ++ tr).
Proof.
  intros Hs Hr. unfold extract, extract_into. simpl. rewrite Hs. simpl.
  fold (extract_into paper_info rest ts).
  now rewrite extract_into_acc, Hr.
Qed.

(** C1 (Cartesian completeness).  A sentence with root [v], at least one
    subject-like and at least one object-like token, contributes to the
    output of [extract], between the triples of the sentences before it and
    those of the sentences after it, exactly [k * m] triples; the triple at
    position [i * m + j] of the contribution is the one of the [i]-th
    subject and the [j]-th object (subjects outer, objects inner): its
    subject and object are the space-joined texts of the two subtrees, its
    predicate is the lemma of [v], and its source title and URL are those
    of the provenance. *)
Theorem cartesian_completeness (paper_info : PaperInfo)
  (sent : Sentence Token) (v : Token)
  (before after : list (Sentence Token)) (tb ta : list Triple) :
  root sent = Some v ->
  subjects sent <> [] ->
  objects sent <> [] ->
  extract before paper_info = Ok tb ->
  extract after paper_info = Ok ta ->
  exists emitted : list Triple,
    extract (before ++ sent :: after) paper_info = Ok (tb ++ emitted ++ ta) /\
    length emitted = length (subjects sent) * length (objects sent) /\
    forall i j sub obj,
      nth_error (subjects sent) i = Some sub ->
      nth_error (objects sent) j = Some obj ->
      nth_error emitted (i * length (objects sent) + j) =
      Some {| subject := Py.join " " (map text (subtree sub));
              predicate := lemma_ v;
              object := Py.join " " (map text (subtree obj));
              source_title := title paper_info;
              source_url := url paper_info |}.
Proof.
  intros Hroot Hs Ho Hb Ha.
  exists (cartesian paper_info v (subjects sent) (objects sent)).
  split; [|split].
  - apply extract_app; [assumption|].
    apply extract_cons; [|assumption].
    now rewrite (sentence_body_rooted _ _ v).
  - apply cartesian_length.
  - intros i j sub obj Hi Hj. now apply cartesian_nth.
Qed.

(** C6 (degenerate input).  Whatever the provenance, [extract] returns the
    empty sequence, without raising, on no sentence at all and on any
    sequence of sentences each of which lacks a subject-like token or lacks
    an object-like token, whether or not those sentences have a root. *)
Theorem extract_degenerate (paper_info : PaperInfo)
  (sents : list (Sentence Token)) :
  Forall (fun sent => subjects sent = [] \/ objects sent = []) sents ->
  extract [] paper_info = Ok [] /\ extract sents paper_info = Ok [].
Proof.
  intros Hall. split; [reflexivity|].
  induction Hall as [|s sents Hs _ IH]; [reflexivity|].
  change (s :: sents) with ([s] ++ sents).
  apply (extract_app _ [s] sents [] []); [|assumption].
  unfold extract, extract_into. simpl.
  now rewrite sentence_body_skip.
Qed.

End ExtractorFacts.

(** The first scenario of the specification. *)
Example scenario_extract :
  extract Doc.scenario_sents Doc.info = Ok Doc.scenario_triples.
Proof. reflexivity. Qed.

Example scenario_document :
  create_triples_from_text Doc.scenario_nlp Doc.scenario_text Doc.info
    default_chunk_size = Ok Doc.scenario_triples.
Proof. vm_compute. reflexivity. Qed.

Lemma cartesian_completeness_witness :
  exists emitted : list Triple,
    extract ([Doc.bare_sent] ++ Doc.pairs_sent :: Doc.scenario_sents) Doc.info
      = Ok ([] ++ emitted ++ Doc.scenario_triples) /\
    length emitted =
      length (subjects Doc.pairs_sent) * length (objects Doc.pairs_sent) /\
    forall i j sub obj,
      nth_error (subjects Doc.pairs_sent) i = Some sub ->
      nth_error (objects Doc.pairs_sent) j = Some obj ->
      nth_error emitted (i * length (objects Doc.pairs_sent) + j) =
      Some {| subject := Py.join " " (map text (subtree sub));
              predicate := lemma_ (Doc.mkTok Doc.pairs_doc 3);
              object := Py.join " " (map text (subtree obj));
              source_title := title Doc.info;
              source_url := url Doc.info |}.
Proof.
  apply (cartesian_completeness Doc.info Doc.pairs_sent
           (Doc.mkTok Doc.pairs_doc 3) [Doc.bare_sent] Doc.scenario_sents
           [] Doc.scenario_triples).
  - reflexivity.
  - vm_compute. discriminate.
  - vm_compute. discriminate.
  - reflexivity.
  - reflexivity.
Defined.

Lemma extract_degenerate_witness :
  extract [] Doc.info = Ok [] /\
  extract [Doc.bare_sent; Doc.span Doc.scenario_doc 4 1 4] Doc.info = Ok [].
Proof.
  apply (extract_degenerate Doc.info
           [Doc.bare_sent; Doc.span Doc.scenario_doc 4 1 4]).
  constructor; [left; reflexivity|].
  constructor; [left; reflexivity|].
  constructor.
Defined.

(** ** The chunk size and the whole of [create_triples_from_text] *)

Lemma range_zero_step (start stop : Z) :
  Py.range start stop 0 = Raise (ValueError "range() arg 3 must not be zero").
Proof. reflexivity. Qed.

Lemma range_negative_step (n : nat) (step : Z) :
  (step < 0)%Z -> Py.range 0 (Z.of_nat n) step = Ok [].
Proof.
  intros Hs. unfold Py.range, Py.range_length.
  destruct (Z.eqb_spec step 0); [lia|].
  destruct (Z.ltb_spec 0 step); [lia|].
  destruct (Z.ltb_spec (Z.of_nat n) 0); [lia|]. reflexivity.
Qed.

Lemma range_raises (start stop step : Z) (e : exn) :
  Py.range start stop step = Raise e -> step = 0%Z.
Proof.
  unfold Py.range. destruct (Z.eqb_spec step 0); [auto|discriminate].
Qed.

Section ChunkSize.

Context {Token : Type} `{TokenAPI Token}.
Variable nlp : string -> result (list (Sentence Token)).

(** The function is the chunker followed by the parse and the extraction
    of each chunk in turn. *)
Lemma create_triples_by_chunks (text : string) (paper_info : PaperInfo)
  (chunk_size : Z) :
  create_triples_from_text nlp text paper_info chunk_size =
  (chunks <- split text chunk_size ;;
   for_each chunks
     (fun chunk triples =>
        sents <- nlp chunk ;; extract_into paper_info sents triples) []).
Proof.
  unfold create_triples_from_text, split.
  destruct (Py.range 0 (Py.len text) chunk_size) as [idxs|e]; simpl;
    [|reflexivity].
  generalize (@nil Triple).
  induction idxs as [|i idxs IH]; intros acc; simpl; [reflexivity|].
  unfold chunk_body at 1.
  destruct (nlp (Py.slice text i (i + chunk_size))) as [sents|e]; simpl;
    [|reflexivity].
  destruct (extract_into paper_info sents acc); simpl; [apply IH|reflexivity].
Qed.

Lemma sentence_body_total (paper_info : PaperInfo) (sent : Sentence Token)
  (acc : list Triple) :
  root sent <> None ->
  exists acc', sentence_body paper_info sent acc = Ok acc'.
Proof.
  intros Hroot. unfold sentence_body, sent_root.
  destruct (Py.truthy (subjects sent) && Py.truthy (objects sent));
    [|eauto].
  destruct (root sent); [simpl; eauto | congruence].
Qed.

(** C4, as the code has it.  A chunk size of zero makes the chunking fail
    at once with [ValueError], before any text is parsed, whatever the text
    and the parser.  A negative chunk size raises nothing: the loop runs
    over no window and the result is the empty sequence.  Zero is the only
    chunk size at which the chunker raises, and with a parser that returns
    sentences with roots the only one at which
    [create_triples_from_text] raises. *)
Theorem chunk_size_contract (text : string) (paper_info : PaperInfo) :
  (split text 0 = Raise (ValueError "range() arg 3 must not be zero") /\
   create_triples_from_text nlp text paper_info 0 =
     Raise (ValueError "range() arg 3 must not be zero")) /\
  (forall size : Z, (size < 0)%Z ->
     split text size = Ok [] /\
     create_triples_from_text nlp text paper_info size = Ok []) /\
  (forall (size : Z) (e : exn), split text size = Raise e -> size = 0%Z) /\
  ((forall chunk, exists sents,
       nlp chunk = Ok sents /\ Forall (fun s => root s <> None) sents) ->
   forall (size : Z) (e : exn),
     create_triples_from_text nlp text paper_info size = Raise e ->
     size = 0%Z).
Proof.
  split; [|split; [|split]].
  - split; reflexivity.
  - intros size Hs.
    unfold split, create_triples_from_text, Py.len.
    rewrite range_negative_step by assumption. split; reflexivity.
  - intros size e. unfold split.
    destruct (Py.range 0 (Py.len text) size) eqn:E; simpl; [discriminate|].
    intros _. now apply range_raises in E.
  - intros Hnlp size e. unfold create_triples_from_text.
    destruct (Py.range 0 (Py.len text) size) as [idxs|e'] eqn:E; simpl.
    + intros Hr. exfalso.
      destruct (for_each_total idxs (chunk_body nlp text paper_info size))
        with (st := @nil Triple) as [acc Hacc]; [|congruence].
      intros i acc _. unfold chunk_body.
      destruct (Hnlp (Py.slice text i (i + size))) as (sents & -> & Hroots).
      simpl. apply for_each_total.
      intros s acc' Hs. apply sentence_body_total.
      rewrite Forall_forall in Hroots. now apply Hroots.
    + intros _. now apply range_raises in E.
Qed.

End ChunkSize.

(** C4 as stated fails: a negative chunk size is non-positive, yet neither
    the chunker nor [create_triples_from_text] raises on it. *)
Lemma negative_chunk_size_is_silent :
  (-1 <= 0)%Z /\
  ~ (exists e, split "ab" (-1) = Raise e) /\
  ~ (exists e,
       create_triples_from_text Doc.scenario_nlp "ab" Doc.info (-1) = Raise e).
Proof.
  split; [discriminate|].
  split; intros [e He]; vm_compute in He; discriminate He.
Qed.

Lemma chunk_size_contract_witness :
  split "ab" (-1) = Ok [] /\
  create_triples_from_text Doc.failing_nlp "ab" Doc.info (-1) = Ok [].
Proof.
  apply (chunk_size_contract Doc.failing_nlp "ab" Doc.info). reflexivity.
Defined.

(** ** The per-document pipeline *)

Section PipelineFacts.

Context {Token : Type} `{TokenAPI Token}.
Variable nlp : string -> result (list (Sentence Token)).
Variable pdf_exists : string -> bool.
Variable download_pdf : Arxiv.Result -> string -> string -> result unit.
Variable fitz_text : string -> result string.
Variable re_sub_whitespace : string -> string.

Lemma try_except_total {A : Type} (body : result A) (dflt : A) :
  exists a, try_except body (fun _ => Ok dflt) = Ok a.
Proof. destruct body; simpl; eauto. Qed.

(** [extract_text_from_pdf] returns a string whatever MuPDF does, the
    empty one when it fails. *)
Lemma extract_text_from_pdf_total (pdf_path : string) :
  exists text,
    extract_text_from_pdf fitz_text re_sub_whitespace pdf_path = Ok text /\
    (forall e, fitz_text pdf_path = Raise e -> text = EmptyString).
Proof.
  unfold extract_text_from_pdf.
  destruct (fitz_text pdf_path) as [t|e]; simpl; eexists; split;
    try reflexivity; intros; congruence.
Qed.

(** C10 (a failing document does not abort the run).
    [process_single_paper] always returns a list of triples and never
    raises; it returns the empty list whenever the body of its [try]
    raises, in particular when the download fails, when the text of the
    PDF cannot be extracted, and when [create_triples_from_text] raises
    (a failure of the parser, say). *)
Theorem process_single_paper_never_raises (paper_result : Arxiv.Result) :
  (exists triples,
     process_single_paper nlp pdf_exists download_pdf fitz_text
       re_sub_whitespace paper_result = Ok triples) /\
  (forall e,
     process_body nlp pdf_exists download_pdf fitz_text re_sub_whitespace
       paper_result = Raise e ->
     process_single_paper nlp pdf_exists download_pdf fitz_text
       re_sub_whitespace paper_result = Ok []) /\
  (forall e,
     pdf_exists (pdf_path paper_result) = false ->
     download_pdf paper_result STORAGE_PATH (pdf_name paper_result)
       = Raise e ->
     process_single_paper nlp pdf_exists download_pdf fitz_text
       re_sub_whitespace paper_result = Ok []) /\
  (forall e,
     fitz_text (pdf_path paper_result) = Raise e ->
     process_single_paper nlp pdf_exists download_pdf fitz_text
       re_sub_whitespace paper_result = Ok []) /\
  (forall text e,
     extract_text_from_pdf fitz_text re_sub_whitespace
       (pdf_path paper_result) = Ok text ->
     create_triples_from_text nlp text
       {| title := Arxiv.title paper_result;
          url := Arxiv.entry_id paper_result |} default_chunk_size
       = Raise e ->
     process_single_paper nlp pdf_exists download_pdf fitz_text
       re_sub_whitespace paper_result = Ok []).
Proof.
  unfold process_single_paper.
  split; [apply try_except_total|].
  split; [intros e ->; reflexivity|].
  unfold process_body. fold (pdf_name paper_result). fold (pdf_path paper_result).
  split; [|split].
  - intros e -> ->. reflexivity.
  - intros e Hf.
    destruct (extract_text_from_pdf_total (pdf_path paper_result))
      as (text & -> & Hempty).
    rewrite (Hempty e Hf).
    destruct (if negb (pdf_exists (pdf_path paper_result))
              then download_pdf paper_result STORAGE_PATH (pdf_name paper_result)
              else Ok tt); reflexivity.
  - intros text e -> Hc.
    destruct (if negb (pdf_exists (pdf_path paper_result))
              then download_pdf paper_result STORAGE_PATH (pdf_name paper_result)
              else Ok tt); [|reflexivity].
    simpl. destruct (negb (str_truthy text)); [reflexivity|].
    now rewrite Hc.
Qed.

End PipelineFacts.

Lemma process_single_paper_never_raises_witness :
  process_single_paper Doc.failing_nlp (fun _ => true)
    (fun _ _ _ => Ok tt) (fun _ => Ok "Researchers proposed a model.")
    (fun text => text) Doc.paper = Ok [].
Proof.
  refine (proj2 (proj2 (proj2 (proj2
    (process_single_paper_never_raises Doc.failing_nlp (fun _ => true)
       (fun _ _ _ => Ok tt) (fun _ => Ok "Researchers proposed a model.")
       (fun text => text) Doc.paper))))
    "Researchers proposed a model."
    (ValueError "text exceeds nlp.max_length") _ _); reflexivity.
Defined.

(** ** Triple store *)

Module StoreFacts.

Import Store.

Lemma merge_empty (w : World) : merge [] w = (Ok tt, w).
Proof. reflexivity. Qed.

(** Runs the store operations of the goal on a world whose file is known. *)
Ltac run_io E :=
  match type of E with
  | file ?w = _ =>
      let f := fresh "f" in
      let tr := fresh "tr" in
      destruct w as [f tr]; cbn [file] in E; subst f
  end;
  cbv [merge append_triples_to_json clear load_all load_results iobind
       os_path_exists json_load json_dump os_remove
       try_except_JSONDecodeError lift ret extend log file trace
       Py.truthy negb fst snd];
  rewrite <- ?app_assoc; try reflexivity.

Lemma merge_missing (w : World) (t : Triple) (b : list Triple) :
  file w = None ->
  merge (t :: b) w =
  (Ok tt, {| file := Some (Json (JArr (map triple_json (t :: b))));
             trace := trace w ++ [EvExists; EvWrite] |}).
Proof. intros E. run_io E. Qed.

Lemma merge_bad_json (w : World) (raw : string) (t : Triple)
  (b : list Triple) :
  file w = Some (BadJson raw) ->
  merge (t :: b) w =
  (Ok tt, {| file := Some (Json (JArr (map triple_json (t :: b))));
             trace := trace w ++ [EvExists; EvRead; EvWrite] |}).
Proof. intros E. run_io E. Qed.

Lemma merge_array (w : World) (items : list json) (t : Triple)
  (b : list Triple) :
  file w = Some (Json (JArr items)) ->
  merge (t :: b) w =
  (Ok tt, {| file := Some (Json (JArr (items ++ map triple_json (t :: b))));
             trace := trace w ++ [EvExists; EvRead; EvWrite] |}).
Proof. intros E. run_io E. Qed.

Lemma merge_bad_bytes (w : World) (t : Triple) (b : list Triple) :
  file w = Some BadBytes ->
  merge (t :: b) w =
  (Raise UnicodeDecodeError,
   {| file := Some BadBytes; trace := trace w ++ [EvExists; EvRead] |}).
Proof. intros E. run_io E. Qed.

(** A file that parses but is not an array has no [extend]. *)
Lemma merge_not_array (w : World) (v : json) (t : Triple) (b : list Triple) :
  file w = Some (Json v) ->
  (forall items, v <> JArr items) ->
  exists msg,
    merge (t :: b) w =
    (Raise (AttributeError msg),
     {| file := Some (Json v); trace := trace w ++ [EvExists; EvRead] |}).
Proof.
  intros E Hv. run_io E.
  destruct v; try (eexists; reflexivity). now destruct (Hv items).
Qed.

Lemma merge_holds (w : World) (l b : list Triple) :
  holds w l ->
  exists w', merge b w = (Ok tt, w') /\ holds w' (l ++ b).
Proof.
  intros Hw. destruct b as [|t b].
  - exists w. rewrite app_nil_r. split; [reflexivity|assumption].
  - destruct Hw as [[E ->]|E].
    + rewrite (merge_missing _ _ _ E). eexists; split; [reflexivity|].
      right. reflexivity.
    + rewrite (merge_array _ _ _ _ E). eexists; split; [reflexivity|].
      right. cbn [file]. now rewrite map_app.
Qed.

Lemma merge_all_holds (batches : list (list Triple)) :
  forall (w : World) (l : list Triple),
    holds w l ->
    exists w', merge_all batches w = (Ok tt, w') /\
               holds w' (l ++ concat batches).
Proof.
  induction batches as [|b batches IH]; intros w l Hw.
  - exists w. simpl. rewrite app_nil_r. split; [reflexivity|assumption].
  - destruct (merge_holds w l b Hw) as (w1 & E1 & H1).
    destruct (IH w1 (l ++ b) H1) as (w2 & E2 & H2).
    exists w2. split.
    + cbn [merge_all]. unfold iobind. rewrite E1. exact E2.
    + simpl. now rewrite app_assoc.
Qed.

Lemma load_all_holds (w : World) (l : list Triple) :
  holds w l -> fst (load_all w) = Ok (JArr (map triple_json l)).
Proof. intros [[E ->]|E]; run_io E. Qed.

Lemma clear_spec (w : World) :
  exists w', clear w = (Ok tt, w') /\ file w' = None.
Proof.
  destruct (file w) as [c|] eqn:E; run_io E; eexists; split; reflexivity.
Qed.

(** C3 (merge monotonicity).  From a cleared store, merging the batches
    [B1, ..., Bn] one after the other never raises, and [load_all] then
    returns the array of [B1 ++ ... ++ Bn], order preserved.  This holds for
    every sequence of batches, so for the sequences of non-empty ones, and an
    empty batch among them adds nothing to the concatenation.  Moreover, in
    any state of the store, merging the empty batch leaves the store and what
    [load_all] returns as they were. *)
Theorem merge_monotonic (w0 : World) (batches : list (list Triple)) :
  (exists w1 w2,
     clear w0 = (Ok tt, w1) /\
     merge_all batches w1 = (Ok tt, w2) /\
     fst (load_all w2) = Ok (JArr (map triple_json (concat batches)))) /\
  (forall w,
     snd (merge [] w) = w /\
     fst (load_all (snd (merge [] w))) = fst (load_all w)).
Proof.
  split; [|split; reflexivity].
  destruct (clear_spec w0) as (w1 & E1 & F1).
  destruct (merge_all_holds batches w1 []) as (w2 & E2 & H2).
  { left. auto. }
  exists w1, w2. repeat split; try assumption.
  now apply load_all_holds.
Qed.

(** Two documents' batches merged after a run that left a broken file. *)
Example merge_two_batches :
  fst (load_all
         (snd (merge_all [[Doc.a_triple]; []; Doc.scenario_triples]
                 (snd (clear {| file := Some (BadJson EmptyString); trace := [] |})))))
  = Ok (JArr (map triple_json (Doc.a_triple :: Doc.scenario_triples))).
Proof. reflexivity. Qed.

(** C7 (empty merge).  In every state of the store, merging the empty
    sequence returns without touching the file system: the file at
    [OUTPUT_PATH], present or not, and the trace of file operations are what
    they were, so nothing was tested, read, written or removed. *)
Theorem merge_empty_is_noop (w : World) :
  merge [] w = (Ok tt, w) /\
  file (snd (merge [] w)) = file w /\
  trace (snd (merge [] w)) = trace w.
Proof. repeat split. Qed.

(** C5, as the code has it.  When the file is missing, or is text that
    [json.load] rejects with [JSONDecodeError] (an empty file, say), merging
    a non-empty batch [B] does not raise: the old content counts as empty
    and the file afterwards is the array of [B]. *)
Theorem merge_recovers (w : World) (B : list Triple) :
  B <> [] ->
  file w = None \/ (exists raw, file w = Some (BadJson raw)) ->
  exists w',
    merge B w = (Ok tt, w') /\
    file w' = Some (Json (JArr (map triple_json B))) /\
    fst (load_all w') = Ok (JArr (map triple_json B)).
Proof.
  intros HB Hw. destruct B as [|t b]; [congruence|].
  destruct Hw as [E|[raw E]].
  - rewrite (merge_missing _ _ _ E). eexists. split; [reflexivity|].
    split; [reflexivity|]. apply load_all_holds. now right.
  - rewrite (merge_bad_json _ _ _ _ E). eexists. split; [reflexivity|].
    split; [reflexivity|]. apply load_all_holds. now right.
Qed.

Lemma merge_recovers_witness :
  exists w',
    merge [Doc.a_triple] {| file := Some (BadJson EmptyString); trace := [] |}
      = (Ok tt, w') /\
    file w' = Some (Json (JArr (map triple_json [Doc.a_triple]))) /\
    fst (load_all w') = Ok (JArr (map triple_json [Doc.a_triple])).
Proof.
  apply (merge_recovers {| file := Some (BadJson EmptyString); trace := [] |}
           [Doc.a_triple]).
  - discriminate.
  - right. exists EmptyString. reflexivity.
Defined.

(** C5 as stated fails: a file whose bytes are not UTF-8 cannot be parsed,
    yet merging a non-empty batch into it raises ([UnicodeDecodeError] is
    not the exception line 106 catches) and the file stays as it was. *)
Lemma merge_undecodable_raises :
  unparsable BadBytes = true /\
  [Doc.a_triple] <> [] /\
  ~ (exists w',
       merge [Doc.a_triple] {| file := Some BadBytes; trace := [] |}
         = (Ok tt, w')) /\
  merge [Doc.a_triple] {| file := Some BadBytes; trace := [] |} =
    (Raise UnicodeDecodeError,
     {| file := Some BadBytes; trace := [EvExists; EvRead] |}).
Proof.
  split; [reflexivity|]. split; [discriminate|].
  split; [|reflexivity].
  intros [w' Hw]. vm_compute in Hw. discriminate Hw.
Qed.



End StoreFacts.

(* ================================================================== *)
(** * Part III: further properties of the code *)
(* ================================================================== *)

(** ** Loops and binds *)

Lemma bind_ok_r {A : Type} (m : result A) : (x <- m ;; Ok x) = m.
Proof. now destruct m. Qed.

Lemma for_each_ext_in {A S : Type} (xs : list A)
  (f g : A -> S -> result S) :
  (forall x st, In x xs -> f x st = g x st) ->
  forall st, for_each xs f st = for_each xs g st.
Proof.
  induction xs as [|x xs IH]; intros Hfg st; simpl; [reflexivity|].
  rewrite (Hfg x st (or_introl eq_refl)).
  destruct (g x st) as [st'|e]; simpl; [|reflexivity].
  apply IH. intros y st2 Hy. apply Hfg. now right.
Qed.

Lemma for_each_invariant {A S : Type} (I : S -> Prop) (xs : list A)
  (body : A -> S -> result S) :
  (forall x st st', body x st = Ok st' -> I st -> I st') ->
  forall st st', for_each xs body st = Ok st' -> I st -> I st'.
Proof.
  intros Hbody. induction xs as [|x xs IH]; intros st st'; simpl.
  - now intros [= <-].
  - destruct (body x st) as [st1|e] eqn:E; simpl; [|discriminate].
    intros Hrest Hst. apply (IH st1 st' Hrest). now apply (Hbody x st).
Qed.

(** ** More on the chunker *)

Lemma split_chunk_bounds (text : string) (size : Z) (chunks : list string) :
  (0 < size)%Z ->
  split text size = Ok chunks ->
  forall c, In c chunks -> (1 <= Py.len c <= size)%Z.
Proof.
  intros Hs Hsplit c Hc. rewrite split_windows in Hsplit by assumption.
  injection Hsplit as <-.
  apply In_nth_error in Hc as [k Hk]. apply windows_nth in Hk as [Hk ->].
  unfold Py.len. rewrite window_length.
  destruct (ceil_div_bounds (String.length text) (Z.to_nat size)) as [_ B];
    [lia|].
  destruct (String.length text) as [|len'] eqn:En.
  - rewrite ceil_div_zero in Hk by lia. lia.
  - specialize (B ltac:(lia)). nia.
Qed.

Lemma ceil_div_one (n d : nat) : 0 < n -> n <= d -> ceil_div n d = 1.
Proof.
  intros Hn Hd. destruct (ceil_div_bounds n d ltac:(lia)) as [Hup Hlow].
  specialize (Hlow Hn). nia.
Qed.

Section MoreChunks.

Context {Token : Type} `{TokenAPI Token}.

(** X1.  A non-empty text no longer than the chunk size is one chunk, the
    text itself, and [create_triples_from_text] is then one parse of the
    whole text followed by the extraction of its sentences. *)
Theorem short_text_is_one_chunk
  (nlp : string -> result (list (Sentence Token)))
  (text : string) (paper_info : PaperInfo) (chunk_size : Z) :
  text <> EmptyString ->
  (Py.len text <= chunk_size)%Z ->
  split text chunk_size = Ok [text] /\
  create_triples_from_text nlp text paper_info chunk_size =
    (sents <- nlp text ;; extract sents paper_info).
Proof.
  intros Hne Hle.
  assert (Hlen : 0 < String.length text)
    by (destruct text; simpl; [congruence|lia]).
  unfold Py.len in Hle.
  assert (Hsplit : split text chunk_size = Ok [text]).
  { rewrite split_windows by lia. rewrite ceil_div_one by lia.
    unfold windows. simpl. now rewrite take_all by lia. }
  split; [exact Hsplit|].
  rewrite create_triples_by_chunks, Hsplit. simpl.
  destruct (nlp text) as [sents|e]; simpl; [|reflexivity].
  apply bind_ok_r.
Qed.

(** X2.  On the empty text, with any chunk size other than zero, there is
    no chunk and [create_triples_from_text] returns the empty list without
    consulting the parser. *)
Theorem empty_text_no_triples
  (nlp : string -> result (list (Sentence Token)))
  (paper_info : PaperInfo) (chunk_size : Z) :
  chunk_size <> 0%Z ->
  split EmptyString chunk_size = Ok [] /\
  create_triples_from_text nlp EmptyString paper_info chunk_size = Ok [].
Proof.
  intros Hs. unfold create_triples_from_text, split, Py.range, Py.range_length.
  destruct (Z.eqb_spec chunk_size 0); [contradiction|].
  simpl Py.len. destruct (0 <? chunk_size)%Z; simpl; split; reflexivity.
Qed.

(** X3.  With a positive chunk size the parser is only ever given chunks of
    one to [chunk_size] characters: two parsers that agree on such chunks
    give the same result, whatever they do on longer texts. *)
Theorem parser_sees_bounded_chunks
  (nlp1 nlp2 : string -> result (list (Sentence Token)))
  (text : string) (paper_info : PaperInfo) (chunk_size : Z) :
  (0 < chunk_size)%Z ->
  (forall chunk, (1 <= Py.len chunk <= chunk_size)%Z ->
     nlp1 chunk = nlp2 chunk) ->
  create_triples_from_text nlp1 text paper_info chunk_size =
  create_triples_from_text nlp2 text paper_info chunk_size.
Proof.
  intros Hs Hagree. rewrite !create_triples_by_chunks.
  destruct (split text chunk_size) as [chunks|e] eqn:E; simpl; [|reflexivity].
  apply for_each_ext_in. intros c acc Hc.
  rewrite (Hagree c); [reflexivity|].
  now apply (split_chunk_bounds text chunk_size chunks).
Qed.

Lemma chunks_loop_concat
  (nlp : string -> result (list (Sentence Token)))
  (paper_info : PaperInfo) (chunks : list string) (tss : list (list Triple)) :
  Forall2 (fun chunk ts =>
             exists sents, nlp chunk = Ok sents /\
                           extract sents paper_info = Ok ts) chunks tss ->
  forall acc,
    for_each chunks
      (fun chunk triples =>
         sents <- nlp chunk ;; extract_into paper_info sents triples) acc =
    Ok (acc ++ concat tss).
Proof.
  induction 1 as [|c ts chunks tss (sents & Hn & He) _ IH]; intros acc; simpl.
  - now rewrite app_nil_r.
  - rewrite Hn. simpl. rewrite extract_into_acc, He. simpl.
    rewrite IH. now rewrite app_assoc.
Qed.

(** X4.  When every chunk parses and its sentences extract,
    [create_triples_from_text] returns the triples of the chunks
    concatenated in chunk order. *)
Theorem create_triples_concat
  (nlp : string -> result (list (Sentence Token)))
  (text : string) (paper_info : PaperInfo) (chunk_size : Z)
  (chunks : list string) (tss : list (list Triple)) :
  split text chunk_size = Ok chunks ->
  Forall2 (fun chunk ts =>
             exists sents, nlp chunk = Ok sents /\
                           extract sents paper_info = Ok ts) chunks tss ->
  create_triples_from_text nlp text paper_info chunk_size = Ok (concat tss).
Proof.
  intros Hsplit Hall. rewrite create_triples_by_chunks, Hsplit. simpl.
  now rewrite (chunks_loop_concat nlp paper_info chunks tss Hall).
Qed.

(** X5.  The first chunk that fails, in the parser or in the extraction,
    makes [create_triples_from_text] raise that error: the triples of the
    chunks before it are not returned. *)
Theorem create_triples_first_failure
  (nlp : string -> result (list (Sentence Token)))
  (text : string) (paper_info : PaperInfo) (chunk_size : Z)
  (before after : list string) (chunk : string) (e : exn) :
  split text chunk_size = Ok (before ++ chunk :: after) ->
  Forall (fun c => exists sents ts, nlp c = Ok sents /\
                                    extract sents paper_info = Ok ts)
         before ->
  (nlp chunk = Raise e \/
   exists sents, nlp chunk = Ok sents /\
                 extract sents paper_info = Raise e) ->
  create_triples_from_text nlp text paper_info chunk_size = Raise e.
Proof.
  intros Hsplit Hbefore Hfail.
  rewrite create_triples_by_chunks, Hsplit. simpl. rewrite for_each_app.
  assert (Hpre : exists acc,
             for_each before
               (fun c triples =>
                  sents <- nlp c ;; extract_into paper_info sents triples) []
             = Ok acc).
  { apply for_each_total. intros c acc Hc.
    rewrite Forall_forall in Hbefore.
    destruct (Hbefore c Hc) as (sents & ts & Hn & He).
    rewrite Hn. simpl. rewrite extract_into_acc, He. simpl. eauto. }
  destruct Hpre as [acc ->]. simpl.
  destruct Hfail as [Hn|(sents & Hn & He)]; rewrite Hn; simpl;
    [reflexivity|].
  now rewrite extract_into_acc, He.
Qed.

(** X8.  Extraction distributes over the concatenation of sentence
    sequences, errors included: the first part's error if it raises, else
    the second's, else both outputs appended. *)
Theorem extract_concat (paper_info : PaperInfo)
  (xs ys : list (Sentence Token)) :
  extract (xs ++ ys) paper_info =
  (tx <- extract xs paper_info ;;
   ty <- extract ys paper_info ;;
   Ok (tx ++ ty)).
Proof.
  unfold extract at 1. unfold extract_into. rewrite for_each_app.
  fold (extract_into paper_info xs []). fold (extract xs paper_info).
  destruct (extract xs paper_info) as [tx|e]; simpl; [|reflexivity].
  fold (extract_into paper_info ys tx). apply extract_into_acc.
Qed.

Lemma sentence_body_volume (paper_info : PaperInfo) (sent : Sentence Token) :
  root sent <> None ->
  exists ts,
    sentence_body paper_info sent [] = Ok ts /\
    length ts = length (subjects sent) * length (objects sent).
Proof.
  intros Hroot. destruct (root sent) as [v|] eqn:Ev; [|congruence].
  destruct (subjects sent) as [|s ss] eqn:Es.
  - exists []. split; [|reflexivity]. apply sentence_body_skip. now left.
  - destruct (objects sent) as [|o os] eqn:Eo.
    + exists []. split; [|simpl; lia]. apply sentence_body_skip. now right.
    + eexists. split.
      * rewrite (sentence_body_rooted _ _ v); [reflexivity|assumption|..];
          congruence.
      * simpl app. rewrite cartesian_length, Es, Eo. reflexivity.
Qed.

(** X7.  When every sentence has a root, the extractor returns as many
    triples as the sentences have (subject, object) pairs: the sum over the
    sentences of subjects times objects. *)
Theorem extract_volume (paper_info : PaperInfo)
  (sents : list (Sentence Token)) :
  Forall (fun sent => root sent <> None) sents ->
  exists ts,
    extract sents paper_info = Ok ts /\ length ts = triple_volume sents.
Proof.
  induction 1 as [|s sents Hs _ (tr & Hr & Hlen)].
  - exists []. split; reflexivity.
  - destruct (sentence_body_volume paper_info s Hs) as (ts & Hb & Hl).
    exists (ts ++ tr). split; [now apply extract_cons|].
    rewrite length_app, Hl, Hlen. reflexivity.
Qed.

Lemma sentence_body_attributed (paper_info : PaperInfo)
  (sent : Sentence Token) (acc acc' : list Triple) :
  sentence_body paper_info sent acc = Ok acc' ->
  Forall (attributed paper_info) acc ->
  Forall (attributed paper_info) acc'.
Proof.
  unfold sentence_body.
  destruct (Py.truthy (subjects sent) && Py.truthy (objects sent));
    [|now intros [= <-]].
  destruct (sent_root sent) as [v|e]; cbn [bind]; [|discriminate].
  rewrite pair_loops_cartesian. intros [= <-] Hacc.
  apply Forall_app. split; [assumption|].
  unfold cartesian. apply Forall_flat_map, Forall_forall. intros sub _.
  apply Forall_map, Forall_forall. intros obj _. split; reflexivity.
Qed.

Lemma chunk_loop_attributed
  (nlp : string -> result (list (Sentence Token)))
  (text : string) (paper_info : PaperInfo) (chunk_size : Z)
  (idxs : list Z) (acc triples : list Triple) :
  for_each idxs (chunk_body nlp text paper_info chunk_size) acc = Ok triples ->
  Forall (attributed paper_info) acc ->
  Forall (attributed paper_info) triples.
Proof.
  apply (for_each_invariant (Forall (attributed paper_info))).
  intros i a a'. unfold chunk_body.
  destruct (nlp (Py.slice text i (i + chunk_size))) as [sents|e]; simpl;
    [|discriminate].
  apply (for_each_invariant (Forall (attributed paper_info))).
  intros s b b'. apply sentence_body_attributed.
Qed.

(** X6.  Every triple [create_triples_from_text] returns carries the title
    and the URL of the [paper_info] it was given. *)
Theorem created_triples_attributed
  (nlp : string -> result (list (Sentence Token)))
  (text : string) (paper_info : PaperInfo) (chunk_size : Z)
  (triples : list Triple) :
  create_triples_from_text nlp text paper_info chunk_size = Ok triples ->
  Forall (attributed paper_info) triples.
Proof.
  unfold create_triples_from_text.
  destruct (Py.range 0 (Py.len text) chunk_size) as [idxs|e]; simpl;
    [|discriminate].
  intros Hloop.
  now apply (chunk_loop_attributed nlp text paper_info chunk_size idxs []).
Qed.

End MoreChunks.

Lemma short_text_is_one_chunk_witness :
  split Doc.scenario_text 100 = Ok [Doc.scenario_text] /\
  create_triples_from_text Doc.scenario_nlp Doc.scenario_text Doc.info 100 =
    (sents <- Doc.scenario_nlp Doc.scenario_text ;; extract sents Doc.info).
Proof.
  apply (short_text_is_one_chunk Doc.scenario_nlp Doc.scenario_text
           Doc.info 100).
  - discriminate.
  - unfold Py.len. simpl. lia.
Defined.

Lemma empty_text_no_triples_witness :
  split EmptyString default_chunk_size = Ok [] /\
  create_triples_from_text Doc.failing_nlp EmptyString Doc.info
    default_chunk_size = Ok [].
Proof.
  apply (empty_text_no_triples Doc.failing_nlp Doc.info default_chunk_size).
  discriminate.
Defined.

Lemma parser_sees_bounded_chunks_witness :
  create_triples_from_text (bounded_nlp 10) "abcdefghijklmnopqrstuvwxy"
    Doc.info 10 =
  create_triples_from_text Doc.scenario_nlp "abcdefghijklmnopqrstuvwxy"
    Doc.info 10.
Proof.
  apply (parser_sees_bounded_chunks (bounded_nlp 10) Doc.scenario_nlp
           "abcdefghijklmnopqrstuvwxy" Doc.info 10).
  - reflexivity.
  - intros chunk [_ Hle]. unfold bounded_nlp.
    destruct (Z.ltb_spec 10 (Py.len chunk)); [lia|reflexivity].
Defined.

Lemma create_triples_concat_witness :
  create_triples_from_text chunked_nlp Doc.scenario_text Doc.info 30 =
  Ok (concat [[Doc.a_triple]; [second_triple]]).
Proof.
  apply (create_triples_concat chunked_nlp Doc.scenario_text Doc.info 30
           [first_chunk; second_chunk] [[Doc.a_triple]; [second_triple]]).
  - reflexivity.
  - constructor.
    + exists [Doc.span first_doc 0 5 1]. split; reflexivity.
    + constructor; [|constructor].
      exists [Doc.span second_doc 0 5 2]. split; reflexivity.
Defined.

Lemma create_triples_first_failure_witness :
  create_triples_from_text halting_nlp Doc.scenario_text Doc.info 30 =
  Raise (ValueError "text exceeds nlp.max_length").
Proof.
  apply (create_triples_first_failure halting_nlp Doc.scenario_text
           Doc.info 30 [first_chunk] [] second_chunk).
  - reflexivity.
  - constructor; [|constructor].
    exists [Doc.span first_doc 0 5 1], [Doc.a_triple]. split; reflexivity.
  - left. reflexivity.
Defined.

Lemma created_triples_attributed_witness :
  Forall (attributed Doc.info) Doc.scenario_triples.
Proof.
  apply (created_triples_attributed Doc.scenario_nlp Doc.scenario_text
           Doc.info 100).
  reflexivity.
Defined.

Lemma extract_volume_witness :
  exists ts,
    extract (Doc.pairs_sent :: Doc.scenario_sents) Doc.info = Ok ts /\
    length ts = triple_volume (Doc.pairs_sent :: Doc.scenario_sents).
Proof.
  apply (extract_volume Doc.info (Doc.pairs_sent :: Doc.scenario_sents)).
  repeat constructor; discriminate.
Defined.

(** ** More on the per-document pipeline *)

Lemma re_sub_unsafe_is_safe (s : string) : is_safe (re_sub_unsafe s) = true.
Proof.
  induction s as [|c s IH]; simpl; [reflexivity|].
  destruct (is_unsafe c) eqn:E; [assumption|].
  unfold is_safe in *. simpl. now rewrite E, IH.
Qed.

Lemma re_sub_unsafe_fixes_safe (s : string) :
  is_safe s = true -> re_sub_unsafe s = s.
Proof.
  unfold is_safe. induction s as [|c s IH]; simpl; [reflexivity|].
  intros Hs. apply andb_true_iff in Hs as [Hc Hs].
  apply negb_true_iff in Hc. rewrite Hc. now rewrite IH.
Qed.

Lemma re_sub_unsafe_length (s : string) :
  String.length (re_sub_unsafe s) <= String.length s.
Proof.
  induction s as [|c s IH]; simpl; [lia|].
  destruct (is_unsafe c); simpl; lia.
Qed.

(** X9.  The title cleaned at line 50 holds none of the characters of the
    class; cleaning is idempotent, leaves a title without such characters
    as it is, and never lengthens. *)
Theorem safe_title_is_safe (s : string) :
  is_safe (re_sub_unsafe s) = true /\
  re_sub_unsafe (re_sub_unsafe s) = re_sub_unsafe s /\
  (is_safe s = true -> re_sub_unsafe s = s) /\
  String.length (re_sub_unsafe s) <= String.length s.
Proof.
  split; [apply re_sub_unsafe_is_safe|].
  split; [apply re_sub_unsafe_fixes_safe, re_sub_unsafe_is_safe|].
  split; [apply re_sub_unsafe_fixes_safe|apply re_sub_unsafe_length].
Qed.

Lemma string_forallb_app (p : ascii -> bool) (s t : string) :
  string_forallb p (s ++ t)%string =
  string_forallb p s && string_forallb p t.
Proof.
  induction s as [|c s IH]; simpl; [reflexivity|].
  now rewrite IH, andb_assoc.
Qed.

Lemma safe_no_slash (s : string) : is_safe s = true -> no_slash s = true.
Proof.
  unfold is_safe, no_slash. induction s as [|c s IH]; simpl; [reflexivity|].
  intros Hs. apply andb_true_iff in Hs as [Hc Hs]. rewrite (IH Hs).
  rewrite andb_true_r. apply negb_true_iff in Hc. apply negb_true_iff.
  unfold is_unsafe, unsafe_chars in Hc. simpl in Hc.
  destruct (Ascii.eqb c "/"); [|reflexivity].
  now rewrite orb_true_r in Hc.
Qed.

Lemma os_path_join_relative (a b : string) :
  a <> EmptyString ->
  ends_with_slash a = false ->
  no_slash b = true ->
  os_path_join a b = (a ++ "/" ++ b)%string.
Proof.
  intros Ha He Hb. unfold os_path_join.
  destruct a as [|x a]; [congruence|]. rewrite He.
  destruct b as [|c r]; [reflexivity|].
  unfold no_slash in Hb. simpl in Hb.
  apply andb_true_iff in Hb as [Hc _]. apply negb_true_iff in Hc.
  destruct c as [[] [] [] [] [] [] [] []]; try reflexivity.
  discriminate Hc.
Qed.

(** X10.  Whatever the title, the PDF of a paper is read and written at
    [./papers/<cleaned title>.pdf], and its file name holds no slash: the
    path never leaves the storage directory. *)
Theorem pdf_path_in_storage (paper_result : Arxiv.Result) :
  pdf_path paper_result =
    ("./papers/" ++ re_sub_unsafe (Arxiv.title paper_result) ++ ".pdf")%string /\
  no_slash (pdf_name paper_result) = true.
Proof.
  assert (Hn : no_slash (pdf_name paper_result) = true).
  { unfold pdf_name, no_slash. rewrite string_forallb_app.
    fold (no_slash (re_sub_unsafe (Arxiv.title paper_result))).
    rewrite safe_no_slash by apply re_sub_unsafe_is_safe. reflexivity. }
  split; [|exact Hn].
  unfold pdf_path. rewrite os_path_join_relative; try assumption;
    try reflexivity. discriminate.
Qed.

Lemma replace_hyphen_newline_id (s : string) :
  no_newline s = true -> replace_hyphen_newline s = s.
Proof.
  unfold no_newline. induction s as [|a t IH]; [reflexivity|].
  intros Hs. simpl in Hs. apply andb_true_iff in Hs as [_ Ht].
  specialize (IH Ht). destruct t as [|b r]; [reflexivity|].
  simpl in Ht. apply andb_true_iff in Ht as [Hb _].
  apply negb_true_iff in Hb.
  change (replace_hyphen_newline (String a (String b r))) with
    (if (Ascii.eqb a "-" && Ascii.eqb b (ascii_of_nat 10))%bool
     then replace_hyphen_newline r
     else String a (replace_hyphen_newline (String b r))).
  rewrite Hb, andb_false_r. now rewrite IH.
Qed.

Section MorePipeline.

Context {Token : Type} `{TokenAPI Token}.
Variable nlp : string -> result (list (Sentence Token)).
Variable pdf_exists : string -> bool.
Variable fitz_text : string -> result string.
Variable re_sub_whitespace : string -> string.

(** X12.  When the text left by the whitespace substitution holds no line
    feed, the replacement of hyphen-newline that follows it changes
    nothing: the text of the PDF is the whitespace-normalised text. *)
Theorem hyphen_replace_is_noop (path : string) (raw : string) :
  fitz_text path = Ok raw ->
  no_newline (re_sub_whitespace raw) = true ->
  extract_text_from_pdf fitz_text re_sub_whitespace path =
    Ok (re_sub_whitespace raw).
Proof.
  intros Hf Hn. unfold extract_text_from_pdf. rewrite Hf. simpl.
  now rewrite replace_hyphen_newline_id.
Qed.

(** X11.  A paper whose PDF is already in the storage directory is not
    downloaded again: the result does not depend on the download at all. *)
Theorem existing_pdf_not_downloaded
  (download1 download2 : Arxiv.Result -> string -> string -> result unit)
  (paper_result : Arxiv.Result) :
  pdf_exists (pdf_path paper_result) = true ->
  process_single_paper nlp pdf_exists download1 fitz_text re_sub_whitespace
    paper_result =
  process_single_paper nlp pdf_exists download2 fitz_text re_sub_whitespace
    paper_result.
Proof.
  intros He. unfold process_single_paper, process_body.
  fold (pdf_name paper_result). fold (pdf_path paper_result).
  now rewrite He.
Qed.

Variable download_pdf : Arxiv.Result -> string -> string -> result unit.

(** X13.  When the PDF is at hand (already stored, or downloaded without
    error), its text is extracted and is not empty, and the extraction of
    triples succeeds, [process_single_paper] returns exactly the triples of
    [create_triples_from_text] on the normalised text, with the paper's
    title and entry id as provenance and the default chunk size. *)
Theorem process_single_paper_success (paper_result : Arxiv.Result)
  (raw : string) (triples : list Triple) :
  pdf_exists (pdf_path paper_result) = true \/
    download_pdf paper_result STORAGE_PATH (pdf_name paper_result) = Ok tt ->
  fitz_text (pdf_path paper_result) = Ok raw ->
  replace_hyphen_newline (re_sub_whitespace raw) <> EmptyString ->
  create_triples_from_text nlp
    (replace_hyphen_newline (re_sub_whitespace raw))
    {| title := Arxiv.title paper_result;
       url := Arxiv.entry_id paper_result |} default_chunk_size
    = Ok triples ->
  process_single_paper nlp pdf_exists download_pdf fitz_text
    re_sub_whitespace paper_result = Ok triples.
Proof.
  intros Hpdf Hf Hne Hc. unfold process_single_paper, process_body.
  fold (pdf_name paper_result). fold (pdf_path paper_result).
  assert (Hd : (if negb (pdf_exists (pdf_path paper_result))
                then download_pdf paper_result STORAGE_PATH
                       (pdf_name paper_result)
                else Ok tt) = Ok tt).
  { destruct Hpdf as [-> | Hd]; [reflexivity|].
    now destruct (pdf_exists (pdf_path paper_result)). }
  rewrite Hd. unfold extract_text_from_pdf. rewrite Hf. simpl.
  destruct (replace_hyphen_newline (re_sub_whitespace raw)) as [|c t] eqn:E;
    [congruence|].
  simpl. now rewrite Hc.
Qed.

(** X14.  Every triple [process_single_paper] returns for a paper carries
    that paper's title as [source_title] and its entry id as [source_url]. *)
Theorem processed_triples_attributed (paper_result : Arxiv.Result)
  (triples : list Triple) :
  process_single_paper nlp pdf_exists download_pdf fitz_text
    re_sub_whitespace paper_result = Ok triples ->
  Forall (attributed {| title := Arxiv.title paper_result;
                        url := Arxiv.entry_id paper_result |}) triples.
Proof.
  unfold process_single_paper, process_body.
  destruct (if negb (pdf_exists _) then _ else Ok tt); simpl;
    [|intros [= <-]; constructor].
  destruct (extract_text_from_pdf fitz_text re_sub_whitespace _) as [text|e];
    simpl; [|intros [= <-]; constructor].
  destruct (negb (str_truthy text)); [intros [= <-]; constructor|].
  unfold create_triples_from_text.
  destruct (Py.range 0 (Py.len text) default_chunk_size) as [idxs|e]; simpl;
    [|intros [= <-]; constructor].
  destruct (for_each idxs _ []) as [ts|e] eqn:E; simpl;
    intros [= <-]; [|constructor].
  now apply (chunk_loop_attributed nlp text _ default_chunk_size idxs []).
Qed.

End MorePipeline.

Lemma hyphen_replace_is_noop_witness :
  extract_text_from_pdf (fun _ => Ok "co- operative work") (fun text => text)
    "./papers/A.pdf" = Ok "co- operative work".
Proof.
  apply (hyphen_replace_is_noop (fun _ => Ok "co- operative work")
           (fun text => text) "./papers/A.pdf" "co- operative work");
    reflexivity.
Defined.

Lemma existing_pdf_not_downloaded_witness :
  process_single_paper Doc.scenario_nlp (fun _ => true)
    (fun _ _ _ => Raise (OSError "connection refused"))
    (fun _ => Ok Doc.scenario_text) (fun text => text) Doc.paper =
  process_single_paper Doc.scenario_nlp (fun _ => true)
    (fun _ _ _ => Ok tt)
    (fun _ => Ok Doc.scenario_text) (fun text => text) Doc.paper.
Proof.
  apply (existing_pdf_not_downloaded Doc.scenario_nlp (fun _ => true)
           (fun _ => Ok Doc.scenario_text) (fun text => text)).
  reflexivity.
Defined.

Lemma process_single_paper_success_witness :
  process_single_paper Doc.scenario_nlp (fun _ => false)
    (fun _ _ _ => Ok tt) (fun _ => Ok Doc.scenario_text) (fun text => text)
    Doc.paper =
  Ok [ mkTriple "Researchers" "propose" "a model"
         "What is a model?" "http://arxiv.org/abs/0000.00000";
       mkTriple "The model" "improve" "accuracy"
         "What is a model?" "http://arxiv.org/abs/0000.00000" ].
Proof.
  apply (process_single_paper_success Doc.scenario_nlp (fun _ => false)
           (fun _ => Ok Doc.scenario_text) (fun text => text)
           (fun _ _ _ => Ok tt) Doc.paper Doc.scenario_text).
  - right. reflexivity.
  - reflexivity.
  - discriminate.
  - vm_compute. reflexivity.
Defined.

Lemma processed_triples_attributed_witness :
  Forall (attributed {| title := Arxiv.title Doc.paper;
                        url := Arxiv.entry_id Doc.paper |})
    [ mkTriple "Researchers" "propose" "a model"
        "What is a model?" "http://arxiv.org/abs/0000.00000";
      mkTriple "The model" "improve" "accuracy"
        "What is a model?" "http://arxiv.org/abs/0000.00000" ].
Proof.
  apply (processed_triples_attributed Doc.scenario_nlp (fun _ => false)
           (fun _ => Ok Doc.scenario_text) (fun text => text)
           (fun _ _ _ => Ok tt) Doc.paper).
  vm_compute. reflexivity.
Defined.

(** ** More on the store, and the analysis loop *)

Module StoreMore.

Import Store.
Import StoreFacts.

(** X15.  A merge into a store that holds the triples [l] appends: the
    triples that were there stay, in their order, before the new ones. *)
Theorem merge_appends_to_collection (w : World) (l B : list Triple) :
  file w = Some (Json (JArr (map triple_json l))) ->
  exists w',
    merge B w = (Ok tt, w') /\
    file w' = Some (Json (JArr (map triple_json (l ++ B)))).
Proof.
  intros E. destruct B as [|t b].
  - exists w. split; [reflexivity|]. now rewrite app_nil_r.
  - rewrite (merge_array _ _ _ _ E). eexists. split; [reflexivity|].
    cbn [file]. now rewrite map_app.
Qed.

Lemma merge_appends_to_collection_witness :
  exists w',
    merge Doc.scenario_triples
      {| file := Some (Json (JArr (map triple_json [second_triple])));
         trace := [] |}
      = (Ok tt, w') /\
    file w' =
      Some (Json (JArr (map triple_json
                          ([second_triple] ++ Doc.scenario_triples)))).
Proof.
  apply (merge_appends_to_collection
           {| file := Some (Json (JArr (map triple_json [second_triple])));
              trace := [] |}
           [second_triple] Doc.scenario_triples).
  reflexivity.
Defined.



(** X17.  The file operations of a merge: none at all on an empty batch;
    it never removes the file; it opens the file for reading exactly when
    the batch is not empty and the file exists; and a merge of a non-empty
    batch that succeeds has written once, as its last operation. *)
Theorem merge_io_discipline (w : World) (B : list Triple) :
  exists evs,
    trace (snd (merge B w)) = trace w ++ evs /\
    (B = [] -> evs = []) /\
    ~ In EvRemove evs /\
    (In EvRead evs <-> B <> [] /\ file w <> None) /\
    (B <> [] -> fst (merge B w) = Ok tt ->
     exists pre, evs = pre ++ [EvWrite] /\ ~ In EvWrite pre).
Proof.
  destruct B as [|t b].
  - exists []. rewrite merge_empty. simpl. rewrite app_nil_r.
    repeat split; try tauto; intros []; congruence.
  - destruct (file w) as [[v|raw|]|] eqn:E.
    + destruct v;
        try (destruct (merge_not_array w _ t b E ltac:(discriminate))
               as [msg ->];
             exists [EvExists; EvRead]; simpl;
             repeat split; try discriminate; auto;
             intuition discriminate).
      rewrite (merge_array _ _ _ _ E). exists [EvExists; EvRead; EvWrite].
      simpl. repeat split; try discriminate; auto;
        try (intuition discriminate).
      intros _ _. exists [EvExists; EvRead]. split; [reflexivity|].
      simpl. intuition discriminate.
    + rewrite (merge_bad_json _ _ _ _ E). exists [EvExists; EvRead; EvWrite].
      simpl. repeat split; try discriminate; auto;
        try (intuition discriminate).
      intros _ _. exists [EvExists; EvRead]. split; [reflexivity|].
      simpl. intuition discriminate.
    + rewrite (merge_bad_bytes _ _ _ E). exists [EvExists; EvRead].
      simpl. repeat split; try discriminate; auto;
        intuition discriminate.
    + rewrite (merge_missing _ _ _ E). exists [EvExists; EvWrite].
      simpl. repeat split; try discriminate; auto;
        try (intuition (discriminate || congruence)).
      intros _ _. exists [EvExists]. split; [reflexivity|].
      simpl. intuition discriminate.
Qed.

End StoreMore.

Module MainFacts.

Import Store.
Import StoreFacts.
Import Main.

Lemma collected_holds (w : World) (l : list Triple) :
  collected w l -> holds w l.
Proof. intros [[? ?]|[? _]]; [left|right]; auto. Qed.

Lemma merge_collected (w : World) (l : list Triple) (t : Triple)
  (b : list Triple) :
  collected w l ->
  exists w', merge (t :: b) w = (Ok tt, w') /\ collected w' (l ++ t :: b).
Proof.
  intros [[E ->]|[E Hl]].
  - rewrite (merge_missing _ _ _ E). eexists. split; [reflexivity|].
    right. split; [reflexivity|discriminate].
  - rewrite (merge_array _ _ _ _ E). eexists. split; [reflexivity|].
    right. cbn [file]. rewrite map_app. split; [reflexivity|].
    intros H. now apply app_eq_nil in H as [_ ?].
Qed.

Section LoopFacts.

Context {Token : Type} `{TokenAPI Token}.
Variable nlp : string -> result (list (Sentence Token)).
Variable pdf_exists : string -> bool.
Variable download_pdf : Arxiv.Result -> string -> string -> result unit.
Variable fitz_text : string -> result string.
Variable re_sub_whitespace : string -> string.

Lemma process_returns_paper_triples (paper : Arxiv.Result) :
  process_single_paper nlp pdf_exists download_pdf fitz_text
    re_sub_whitespace paper =
  Ok (paper_triples nlp pdf_exists download_pdf fitz_text re_sub_whitespace
        paper).
Proof.
  unfold paper_triples, process_single_paper.
  destruct (process_body nlp pdf_exists download_pdf fitz_text
              re_sub_whitespace paper); reflexivity.
Qed.

Lemma paper_step_collected (paper : Arxiv.Result) (total : Z) (w : World)
  (l : list Triple) :
  collected w l ->
  exists w',
    paper_step nlp pdf_exists download_pdf fitz_text re_sub_whitespace
      paper total w =
      (Ok (total + Z.of_nat (length
             (paper_triples nlp pdf_exists download_pdf fitz_text
                re_sub_whitespace paper)))%Z, w') /\
    collected w'
      (l ++ paper_triples nlp pdf_exists download_pdf fitz_text
              re_sub_whitespace paper).
Proof.
  intros Hw. unfold paper_step, iobind, lift.
  rewrite process_returns_paper_triples.
  destruct (paper_triples nlp pdf_exists download_pdf fitz_text
              re_sub_whitespace paper) as [|t b].
  - exists w. simpl. rewrite Z.add_0_r, app_nil_r. split; [reflexivity|auto].
  - cbn [Py.truthy].
    destruct (merge_collected w l t b Hw) as (w' & Hm & Hh).
    exists w'. unfold merge in Hm. rewrite Hm. split; [reflexivity|assumption].
Qed.

Lemma papers_loop_collected (papers : list Arxiv.Result) :
  forall (total : Z) (w : World) (l : list Triple),
    collected w l ->
    exists w',
      papers_loop nlp pdf_exists download_pdf fitz_text re_sub_whitespace
        papers total w =
        (Ok (total + Z.of_nat (length (concat (map
               (paper_triples nlp pdf_exists download_pdf fitz_text
                  re_sub_whitespace) papers))))%Z, w') /\
      collected w'
        (l ++ concat (map (paper_triples nlp pdf_exists download_pdf
                             fitz_text re_sub_whitespace) papers)).
Proof.
  induction papers as [|p papers IH]; intros total w l Hw.
  - exists w. simpl. rewrite Z.add_0_r, app_nil_r. split; [reflexivity|auto].
  - destruct (paper_step_collected p total w l Hw) as (w1 & E1 & H1).
    destruct (IH (total + Z.of_nat (length
                   (paper_triples nlp pdf_exists download_pdf fitz_text
                      re_sub_whitespace p)))%Z w1 _ H1) as (w2 & E2 & H2).
    exists w2. split.
    + cbn [papers_loop]. unfold iobind at 1. rewrite E1, E2.
      simpl. rewrite length_app. do 2 f_equal. lia.
    + simpl. now rewrite app_assoc.
Qed.

(** X18.  Starting from the store cleared at lines 135-136, the loop over
    the papers never raises; the file then holds the triples of the papers
    in the order of the papers, [total_triples_found] is their number, and
    there is a file exactly when at least one triple was found. *)
Theorem analysis_accumulates (w0 : World) (papers : list Arxiv.Result) :
  exists w1 w2,
    clear w0 = (Ok tt, w1) /\
    papers_loop nlp pdf_exists download_pdf fitz_text re_sub_whitespace
      papers 0 w1 =
      (Ok (Z.of_nat (length (concat (map
             (paper_triples nlp pdf_exists download_pdf fitz_text
                re_sub_whitespace) papers)))), w2) /\
    fst (load_all w2) =
      Ok (JArr (map triple_json (concat (map
            (paper_triples nlp pdf_exists download_pdf fitz_text
               re_sub_whitespace) papers)))) /\
    (file w2 = None <->
     concat (map (paper_triples nlp pdf_exists download_pdf fitz_text
                    re_sub_whitespace) papers) = []).
Proof.
  destruct (clear_spec w0) as (w1 & E1 & F1).
  destruct (papers_loop_collected papers 0 w1 []) as (w2 & E2 & H2).
  { left. auto. }
  exists w1, w2. split; [assumption|]. split; [assumption|].
  simpl in H2. split; [now apply load_all_holds, collected_holds|].
  destruct H2 as [[Hf Hl]|[Hf Hl]]; [tauto|].
  rewrite Hf. split; [discriminate|contradiction].
Qed.

(** X19.  After such a run the load of lines 187-189 puts the collected
    array into the session when at least one triple was found; when none
    was found there is no file and the session keeps whatever results it
    held before the run. *)
Theorem results_after_run (w0 : World) (papers : list Arxiv.Result)
  (session : option json) :
  fst (load_results session
         (snd (papers_loop nlp pdf_exists download_pdf fitz_text
                 re_sub_whitespace papers 0 (snd (clear w0))))) =
  Ok (if Py.truthy (concat (map
            (paper_triples nlp pdf_exists download_pdf fitz_text
               re_sub_whitespace) papers))
      then Some (JArr (map triple_json (concat (map
                   (paper_triples nlp pdf_exists download_pdf fitz_text
                      re_sub_whitespace) papers))))
      else session).
Proof.
  destruct (clear_spec w0) as (w1 & E1 & F1).
  destruct (papers_loop_collected papers 0 w1 []) as (w2 & E2 & H2).
  { left. auto. }
  rewrite E1. cbn [snd]. rewrite E2. cbn [snd]. simpl in H2.
  destruct H2 as [[Hf ->]|[Hf Hl]].
  - run_io Hf.
  - destruct (concat _) as [|t b]; [congruence|]. run_io Hf.
Qed.

End LoopFacts.

(** A run over two papers, of which only the second has a readable PDF,
    after an earlier run left its results in the session. *)
Example run_two_papers :
  fst (load_results (Some (JArr [JStr "earlier results"]))
         (snd (papers_loop Doc.scenario_nlp (fun _ => true)
                 (fun _ _ _ => Ok tt)
                 (fun path => if String.eqb path (pdf_path Doc.paper)
                              then Ok Doc.scenario_text
                              else Raise (OSError "cannot open file"))
                 (fun text => text)
                 [ Arxiv.mkResult "Unreadable" "http://arxiv.org/abs/1";
                   Doc.paper ] 0
                 (snd (clear {| file := Some BadBytes; trace := [] |})))))
  = Ok (Some (JArr (map triple_json
          [ mkTriple "Researchers" "propose" "a model"
              "What is a model?" "http://arxiv.org/abs/0000.00000";
            mkTriple "The model" "improve" "accuracy"
              "What is a model?" "http://arxiv.org/abs/0000.00000" ]))).
Proof. vm_compute. reflexivity. Qed.

End MainFacts.
